(** * CurrencyPP: the Flow Launcher currency plugin, [src/currencypp.py]

    A shallow embedding of the class [CurrencyPP] (query resolution,
    settings reload and configuration reconciliation) and the properties
    its specification states about it.

    Layout:
    - [PyStr]: the Python string methods the plugin calls;
    - the data model (exceptions, requests, items, the broker object);
    - a state-and-exception monad for the plugin object;
    - the collaborators the plugin calls but does not define (the
      [exchange] and [currencyparser] modules, the host), as a class;
    - the methods of [CurrencyPP], in source order;
    - a concrete collaborator instance, used to run the plugin;
    - the theorems. *)

From Stdlib Require Import Ascii.
From Stdlib Require Floats.PrimFloat Numbers.Cyclic.Int63.Uint63.
From stdpp Require Import base option gmap strings list pretty.


(* ===================================================================== *)
(** ** Python string methods *)
(* ===================================================================== *)

Module PyStr.

(** [c.isspace()] on the ASCII range: TAB, LF, VT, FF, CR, the four
    separators FS GS RS US, and the space. *)
Definition isspace (c : ascii) : bool :=
  let n := nat_of_ascii c in
  (Nat.leb 9 n && Nat.leb n 13) || (Nat.leb 28 n && Nat.leb n 32).

(** Truth value of a string: [bool(s)]. *)
Definition truthy (s : string) : bool :=
  match s with EmptyString => false | String _ _ => true end.

Fixpoint lstrip (s : string) : string :=
  match s with
  | EmptyString => EmptyString
  | String c r => if isspace c then lstrip r else s
  end.

Fixpoint rstrip (s : string) : string :=
  match s with
  | EmptyString => EmptyString
  | String c r =>
      let r' := rstrip r in
      if isspace c && negb (truthy r') then EmptyString else String c r'
  end.

(** [s.strip()] *)
Definition strip (s : string) : string := lstrip (rstrip s).

(** [s.split()]: maximal runs of non-space characters. [cur] is the
    current run, reversed. *)
Fixpoint split_go (cur : string) (s : string) : list string :=
  match s with
  | EmptyString => if truthy cur then [String.rev cur] else []
  | String c r =>
      if isspace c
      then (if truthy cur then String.rev cur :: split_go "" r
            else split_go "" r)
      else split_go (String c cur) r
  end.

Definition split (s : string) : list string := split_go "" s.

(** Line boundaries of [s.splitlines()] on the ASCII range. *)
Definition islinebreak (c : ascii) : bool :=
  let n := nat_of_ascii c in
  (Nat.leb 10 n && Nat.leb n 13) || (Nat.leb 28 n && Nat.leb n 30).

(** [s.splitlines()]: CR LF counts as one boundary, and a final
    boundary opens no empty last line. *)
Fixpoint splitlines_go (cur : string) (s : string) : list string :=
  match s with
  | EmptyString => if truthy cur then [String.rev cur] else []
  | String c r =>
      if islinebreak c then
        String.rev cur ::
          match r with
          | String c2 r2 =>
              if (Nat.eqb (nat_of_ascii c) 13 && Nat.eqb (nat_of_ascii c2) 10)%bool
              then splitlines_go "" r2
              else splitlines_go "" r
          | EmptyString => []
          end
      else splitlines_go (String c cur) r
  end.

Definition splitlines (s : string) : list string := splitlines_go "" s.

(** [s.split(sep, 1)] for a one-character separator: [None] when
    [sep not in s], otherwise the text before and after the first
    occurrence (the two elements of the list Python returns). *)
Fixpoint split1 (sep : ascii) (s : string) : option (string * string) :=
  match s with
  | EmptyString => None
  | String c r =>
      if Ascii.eqb c sep then Some (EmptyString, r)
      else match split1 sep r with
           | Some (a, b) => Some (String c a, b)
           | None => None
           end
  end.

(** [sep.join(l)] *)
Fixpoint join (sep : string) (l : list string) : string :=
  match l with
  | [] => ""
  | [x] => x
  | x :: r => x +:+ sep +:+ join sep r
  end.

(** [str(l)] for a list of strings whose elements need no escaping. *)
Definition repr_list (l : list string) : string :=
  "[" +:+ join ", " (map (λ s, "'" +:+ s +:+ "'") l) +:+ "]".

(** [str(x)] for a value that is a string or [None]. *)
Definition str_opt (o : option string) : string :=
  match o with Some s => s | None => "None" end.

Definition str_opt_list (o : option (list string)) : string :=
  match o with Some l => repr_list l | None => "None" end.

End PyStr.

(* ===================================================================== *)
(** ** Exceptions and results *)
(* ===================================================================== *)

(** The exception classes that occur in the plugin. Every one of them is
    a subclass of [Exception]; [OtherException] stands for any further
    class a collaborator may raise. *)
Inductive exn_class :=
| AttributeError
| UnboundLocalError
| ValueError
| TypeError
| OSError
| ParseError
| CurrencyError
| OtherException.

Record exn := Exn { exn_cls : exn_class; exn_msg : string }.

Definition is_ValueError (e : exn) : bool :=
  match exn_cls e with ValueError => true | _ => false end.
Definition is_ParseError (e : exn) : bool :=
  match exn_cls e with ParseError => true | _ => false end.
Definition is_CurrencyError (e : exn) : bool :=
  match exn_cls e with CurrencyError => true | _ => false end.
(** [except Exception] and the bare [except:] catch every class above. *)
Definition is_Exception (e : exn) : bool := true.

(** The outcome of evaluating a Python expression or statement. *)
Inductive Result (A : Type) :=
| Ok (a : A)
| Raise (e : exn).
Arguments Ok {A} a.
Arguments Raise {A} e.

Definition no_attribute (obj attr : string) : exn :=
  Exn AttributeError ("'" +:+ obj +:+ "' object has no attribute '" +:+ attr +:+ "'").

(* ===================================================================== *)
(** ** Builtin and imported types *)
(* ===================================================================== *)

(** The types the plugin takes from Python and from the modules it
    imports: floats, [datetime], the enumeration [exchange.UpdateFreq],
    the parser objects [currencyparser.make_parser] returns, and the
    attributes of the broker this file never touches. *)
Class PyTypes := {
  pyfloat : Type;
  datetime : Type;
  UpdateFreq : Type;
  Parser : Type;
  Internals : Type;
}.

(** A value read from [settings.json]. *)
Inductive pyval :=
| PyNone
| PyStr (s : string)
| PyOther.

Section DataModel.
Context `{PyTypes}.

(** *** Conversion requests: the dictionaries [query()] passes around *)

(** [{'currency': c, 'amount': a}] *)
Record Source := { src_currency : option string; src_amount : pyfloat }.
(** [{'currency': c}] *)
Record Destination := { dst_currency : string }.
(** [{'sources': .., 'destinations': .., 'extra': ..}] *)
Record Request := {
  sources : option (list Source);
  destinations : option (list Destination);
  extra : option string;
}.

(** One element of what [broker.convert] returns. *)
Record ConversionResult := {
  res_title : string;
  res_description : string;
  res_amount : pyfloat;
}.

(** *** Result items handed to the launcher by [add_item] *)

Inductive Method := item_action | update_rates.
Inductive Param := ParamFloat (a : pyfloat) | ParamStr (s : string).

Record Item := {
  title : string;
  subtitle : string;
  context : option string;
  method : option Method;
  parameters : list Param;
  score : option nat;
  dont_hide : bool;
}.

(** *** The broker object, [exchange.ExchangeRates] *)

Record Service := { app_id : string }.

(** Modelled from the spec: [exchange.py] is not part of the sources.
    The record holds the attributes [currencypp.py] reads or writes
    ([default_cur_in], [default_curs_out], [update_freq],
    [expensive_service], [aliases], [error], [last_update]), the rate
    table of the spec's BrokerState, and whatever else the object
    keeps ([internals]). An attribute read with [getattr(.., None)]
    is an option. *)
Record ExchangeRates := {
  default_cur_in : option string;
  default_curs_out : option (list string);
  update_freq : UpdateFreq;
  expensive_service : option Service;
  aliases : gmap string string;
  rates : gmap string pyfloat;
  last_update : option datetime;
  error : option string;
  internals : Internals;
}.

Definition set_update_freq (f : UpdateFreq) (b : ExchangeRates) : ExchangeRates :=
  {| default_cur_in := default_cur_in b; default_curs_out := default_curs_out b;
     update_freq := f; expensive_service := expensive_service b;
     aliases := aliases b; rates := rates b; last_update := last_update b;
     error := error b; internals := internals b |}.

Definition set_expensive_service (s : option Service) (b : ExchangeRates) : ExchangeRates :=
  {| default_cur_in := default_cur_in b; default_curs_out := default_curs_out b;
     update_freq := update_freq b; expensive_service := s;
     aliases := aliases b; rates := rates b; last_update := last_update b;
     error := error b; internals := internals b |}.

Definition set_error (e : option string) (b : ExchangeRates) : ExchangeRates :=
  {| default_cur_in := default_cur_in b; default_curs_out := default_curs_out b;
     update_freq := update_freq b; expensive_service := expensive_service b;
     aliases := aliases b; rates := rates b; last_update := last_update b;
     error := e; internals := internals b |}.

Definition set_aliases (a : gmap string string) (b : ExchangeRates) : ExchangeRates :=
  {| default_cur_in := default_cur_in b; default_curs_out := default_curs_out b;
     update_freq := update_freq b; expensive_service := expensive_service b;
     aliases := a; rates := rates b; last_update := last_update b;
     error := error b; internals := internals b |}.

Definition set_default_in (c : option string) (b : ExchangeRates) : ExchangeRates :=
  {| default_cur_in := c; default_curs_out := default_curs_out b;
     update_freq := update_freq b; expensive_service := expensive_service b;
     aliases := aliases b; rates := rates b; last_update := last_update b;
     error := error b; internals := internals b |}.

Definition set_default_out (l : option (list string)) (b : ExchangeRates) : ExchangeRates :=
  {| default_cur_in := default_cur_in b; default_curs_out := l;
     update_freq := update_freq b; expensive_service := expensive_service b;
     aliases := aliases b; rates := rates b; last_update := last_update b;
     error := error b; internals := internals b |}.

(** *** The parser object, [currencyparser] *)

(** [currencyparser.ParserProperties]: the attributes the plugin sets. *)
Record ParserProperties := {
  pp_default_cur_in : option string;
  pp_default_curs_out : option (list string);
  pp_to_keywords : list string;
  pp_sep_keywords : list string;
  pp_aliases : gmap string string;
}.

(** *** What the plugin does to the outside, in order *)

Inductive Level := DEBUG | INFO | WARNING | ERROR | CRITICAL.

(** Calls into the collaborators. *)
Inductive Call :=
| CallMkdir
| CallExchangeRates (id : nat)
| CallTryUpdate
| CallUpdate
| CallForceUpdate
| CallConvert (q : Request)
| CallClearAliases
| CallAddAlias (alias code : string)
| CallValidateCode (s : string)
| CallValidateAlias (s : string)
| CallSetDefaultCurIn (s : string)
| CallSetDefaultCursOut (s : string)
| CallParse (s : string)
| CallMakeParser (p : ParserProperties)
| CallSettingsReload
| CallUpdateUpdateItem.

(** *** The plugin object *)

(** The instance of [CurrencyPP] together with the part of the world
    it acts on.
    - [broker]: the instance attribute [self.broker], as the identity
      of the object and its state; [None] when the instance has no
      such attribute, so that [self.broker] reads the class attribute
      [broker = None];
    - [self_update_freq], [parser]: the attributes [self.update_freq]
      and [self.parser] ([None]: not set, or set to [None]);
    - [settings]: [self.settings], and [settings_file]: what
      [self.settings.reload()] will read, or the exception it raises;
    - [cache_dir_ok]: whether the cache directory can be made;
    - [next_id]: the identity of the next object constructed;
    - [calls], [log], [items]: the calls made, the log records
      written and the items added so far, oldest first. *)
Record Plugin := {
  broker : option (nat * ExchangeRates);
  self_update_freq : option UpdateFreq;
  parser : option Parser;
  settings : gmap string pyval;
  settings_file : Result (gmap string pyval);
  cache_dir_ok : bool;
  next_id : nat;
  calls : list Call;
  log : list (Level * string);
  items : list Item;
}.

Definition set_broker (x : option (nat * ExchangeRates)) (st : Plugin) : Plugin :=
  {| broker := x; self_update_freq := self_update_freq st; parser := parser st;
     settings := settings st; settings_file := settings_file st;
     cache_dir_ok := cache_dir_ok st; next_id := next_id st;
     calls := calls st; log := log st; items := items st |}.

Definition set_self_update_freq (x : option UpdateFreq) (st : Plugin) : Plugin :=
  {| broker := broker st; self_update_freq := x; parser := parser st;
     settings := settings st; settings_file := settings_file st;
     cache_dir_ok := cache_dir_ok st; next_id := next_id st;
     calls := calls st; log := log st; items := items st |}.

Definition set_parser (x : option Parser) (st : Plugin) : Plugin :=
  {| broker := broker st; self_update_freq := self_update_freq st; parser := x;
     settings := settings st; settings_file := settings_file st;
     cache_dir_ok := cache_dir_ok st; next_id := next_id st;
     calls := calls st; log := log st; items := items st |}.

Definition set_settings (x : gmap string pyval) (st : Plugin) : Plugin :=
  {| broker := broker st; self_update_freq := self_update_freq st; parser := parser st;
     settings := x; settings_file := settings_file st;
     cache_dir_ok := cache_dir_ok st; next_id := next_id st;
     calls := calls st; log := log st; items := items st |}.

Definition set_next_id (x : nat) (st : Plugin) : Plugin :=
  {| broker := broker st; self_update_freq := self_update_freq st; parser := parser st;
     settings := settings st; settings_file := settings_file st;
     cache_dir_ok := cache_dir_ok st; next_id := x;
     calls := calls st; log := log st; items := items st |}.

Definition set_calls (x : list Call) (st : Plugin) : Plugin :=
  {| broker := broker st; self_update_freq := self_update_freq st; parser := parser st;
     settings := settings st; settings_file := settings_file st;
     cache_dir_ok := cache_dir_ok st; next_id := next_id st;
     calls := x; log := log st; items := items st |}.

Definition set_log (x : list (Level * string)) (st : Plugin) : Plugin :=
  {| broker := broker st; self_update_freq := self_update_freq st; parser := parser st;
     settings := settings st; settings_file := settings_file st;
     cache_dir_ok := cache_dir_ok st; next_id := next_id st;
     calls := calls st; log := x; items := items st |}.

Definition set_items (x : list Item) (st : Plugin) : Plugin :=
  {| broker := broker st; self_update_freq := self_update_freq st; parser := parser st;
     settings := settings st; settings_file := settings_file st;
     cache_dir_ok := cache_dir_ok st; next_id := next_id st;
     calls := calls st; log := log st; items := x |}.

(* =================================================================== *)
(** ** The monad of plugin methods *)
(* =================================================================== *)

(** A method body runs on the plugin object and either returns or
    raises; what it did to the object stays done in both cases. *)
Definition M (A : Type) : Type := Plugin → Result A * Plugin.

Definition ret {A} (a : A) : M A := λ st, (Ok a, st).
Definition raise {A} (e : exn) : M A := λ st, (Raise e, st).

Definition bind {A B} (m : M A) (k : A → M B) : M B :=
  λ st, match m st with
        | (Ok a, st') => k a st'
        | (Raise e, st') => (Raise e, st')
        end.

(** [try: m  except <cls> as e: h e] *)
Definition try_except {A} (m : M A) (cls : exn → bool) (h : exn → M A) : M A :=
  λ st, match m st with
        | (Ok a, st') => (Ok a, st')
        | (Raise e, st') => if cls e then h e st' else (Raise e, st')
        end.

(** [for x in l: body x] *)
Fixpoint for_each {A} (l : list A) (body : A → M unit) : M unit :=
  match l with
  | [] => ret tt
  | x :: r => bind (body x) (λ _, for_each r body)
  end.

Definition when (c : bool) (m : M unit) : M unit := if c then m else ret tt.

(** [x ← m; k] and [m;; k] are stdpp's notations for [bind]. *)
#[export] Instance M_ret : MRet M := @ret.
#[export] Instance M_bind : MBind M := λ A B k m, bind m k.

End DataModel.


(* ===================================================================== *)
(** ** Collaborators *)
(* ===================================================================== *)

(** The callables [currencypp.py] uses and does not define: the
    builtin [float], [datetime.isoformat], the by-value constructor and
    the equality of [UpdateFreq], the methods of the broker
    ([exchange.ExchangeRates]), the parser factory and the method
    [parse] of its parsers ([currencyparser]), and one method of the
    host class. A broker method takes the broker's state and gives its
    result (or the exception it raises) and the state it leaves. The
    two validators are functions of their argument alone (the registry
    of the spec, 4.1: "no side effects; pure functions over a static
    code set"). *)
Class Collab `{PyTypes} := {
  (** [float(s)]; [None] is [ValueError]. *)
  float_of_str : string → option pyfloat;
  (** the literal [1.0] *)
  float_one : pyfloat;
  (** [t.isoformat()] *)
  isoformat : datetime → string;
  (** [f != g] *)
  UpdateFreq_eq_dec :: EqDecision UpdateFreq;
  (** [UpdateFreq(s)]; [None] is [ValueError]. *)
  UpdateFreq_of_str : string → option UpdateFreq;
  (** [ExchangeRates(cache_dir, update_freq, app_id_key, self)] *)
  ExchangeRates_new : UpdateFreq → string → Result ExchangeRates;
  tryUpdate : ExchangeRates → Result bool * ExchangeRates;
  force_update : ExchangeRates → Result unit * ExchangeRates;
  convert : Request → ExchangeRates → Result (list ConversionResult) * ExchangeRates;
  clear_aliases : ExchangeRates → Result unit * ExchangeRates;
  add_alias : string → string → ExchangeRates → Result unit * ExchangeRates;
  set_default_cur_in : string → ExchangeRates → Result bool * ExchangeRates;
  set_default_curs_out : string → ExchangeRates → Result bool * ExchangeRates;
  validate_code : string → Result (option string);
  validate_alias : string → Result (option string);
  (** [ParserProperties()] *)
  ParserProperties_new : ParserProperties;
  make_parser : ParserProperties → Result Parser;
  (** [parser.parse(text)] *)
  parse : Parser → string → Result Request;
  (** [self._update_update_item()], which the class does not define. *)
  _update_update_item : Result unit;
}.

(* ===================================================================== *)
(** ** The class [CurrencyPP] *)
(* ===================================================================== *)

Section CurrencyPP.
Context `{Collab}.

(** *** Attribute access, logging, items *)

(** [self.logger.<lvl>(msg)] *)
Definition log_msg (lvl : Level) (msg : string) : M unit :=
  λ st, (Ok tt, set_log (log st ++ [(lvl, msg)]) st).

(** [self.add_item(..)] *)
Definition add_item (it : Item) : M unit :=
  λ st, (Ok tt, set_items (items st ++ [it]) st).

(** [self.broker], the instance attribute or else the class's [None]. *)
Definition self_broker : M (option ExchangeRates) :=
  λ st, (Ok (snd <$> broker st), st).

(** [self.broker.<attr>] *)
Definition broker_attr {A} (attr : string) (f : ExchangeRates → A) : M A :=
  λ st, match broker st with
        | Some (_, b) => (Ok (f b), st)
        | None => (Raise (no_attribute "NoneType" attr), st)
        end.

(** [getattr(self.broker, <attr>, d)] *)
Definition broker_getattr {A} (f : ExchangeRates → A) (d : A) : M A :=
  λ st, (Ok (match broker st with Some (_, b) => f b | None => d end), st).

(** [self.broker.<attr> = v], as a change of the broker's state. *)
Definition broker_set (attr : string) (f : ExchangeRates → ExchangeRates) : M unit :=
  λ st, match broker st with
        | Some (id, b) => (Ok tt, set_broker (Some (id, f b)) st)
        | None => (Raise (no_attribute "NoneType" attr), st)
        end.

(** [self.broker.<method>(..)]: the call is recorded, and the object
    keeps its identity and takes the state the method leaves. *)
Definition broker_call {A} (attr : string) (c : Call)
    (op : ExchangeRates → Result A * ExchangeRates) : M A :=
  λ st, match broker st with
        | Some (id, b) =>
            let '(r, b') := op b in
            (r, set_calls (calls st ++ [c]) (set_broker (Some (id, b')) st))
        | None => (Raise (no_attribute "NoneType" attr), st)
        end.

Definition call_validate_code (s : string) : M (option string) :=
  broker_call "validate_code" (CallValidateCode s) (λ b, (validate_code s, b)).
Definition call_validate_alias (s : string) : M (option string) :=
  broker_call "validate_alias" (CallValidateAlias s) (λ b, (validate_alias s, b)).
Definition call_set_default_cur_in (s : string) : M bool :=
  broker_call "set_default_cur_in" (CallSetDefaultCurIn s) (set_default_cur_in s).
Definition call_set_default_curs_out (s : string) : M bool :=
  broker_call "set_default_curs_out" (CallSetDefaultCursOut s) (set_default_curs_out s).
Definition call_force_update : M unit :=
  broker_call "force_update" CallForceUpdate force_update.
Definition call_clear_aliases : M unit :=
  broker_call "clear_aliases" CallClearAliases clear_aliases.

(** [self.settings.get(key, d)] *)
Definition settings_get (key : string) (d : pyval) : M pyval :=
  λ st, (Ok (default d (settings st !! key)), st).

(** [self.settings.reload()] *)
Definition settings_reload : M unit :=
  λ st, let st1 := set_calls (calls st ++ [CallSettingsReload]) st in
        match settings_file st with
        | Ok s => (Ok tt, set_settings s st1)
        | Raise e => (Raise e, st1)
        end.

(** [[{'currency': cur} for cur in x]] *)
Definition currency_dicts (x : option (list string)) : M (list Destination) :=
  match x with
  | Some l => mret (Build_Destination <$> l)
  | None => raise (Exn TypeError "'NoneType' object is not iterable")
  end.

(** Truth value of a list that may be [None]. *)
Definition truthy_list {A} (x : option (list A)) : bool :=
  match x with Some (_ :: _) => true | _ => false end.

(** *** [_is_direct_request] (lines 112-118) *)

Definition _is_direct_request (query : Request) : bool :=
  let entered_dest :=
    match destinations query with Some _ => true | None => false end in
  let entered_source :=
    match sources query with
    | Some (s :: _) => match src_currency s with Some _ => true | None => false end
    | _ => false
    end in
  entered_dest || entered_source.

(** *** [_parse_and_merge_input] (lines 120-176) *)

(** Lines 130-145: the request that stands for "nothing entered". *)
Definition base_query (empty : bool) : M Request :=
  try_except
    (cur_in ← broker_attr "default_cur_in" default_cur_in;
     curs_out ← broker_attr "default_curs_out" default_curs_out;
     dests ← (if empty then mret None
              else l ← currency_dicts curs_out; mret (Some l));
     mret {| sources := if empty then None
                        else Some [ {| src_currency := cur_in; src_amount := float_one |} ];
             destinations := dests;
             extra := None |})
    is_Exception
    (λ e,
       log_msg ERROR ("Error creating base query: " +:+ exn_msg e);;
       mret {| sources := if empty then None
                          else Some [ {| src_currency := Some "USD"; src_amount := float_one |} ];
               destinations := if empty then None
                               else Some [ {| dst_currency := "EUR" |} ];
               extra := None |}).

(** [self.parser.parse(text)] *)
Definition parser_parse (text : string) : M Request :=
  λ st, match parser st with
        | Some p => (parse p text, set_calls (calls st ++ [CallParse text]) st)
        | None => (Raise (no_attribute "NoneType" "parse"), st)
        end.

(** Lines 168-171: defaults for what the parse left out. *)
Definition apply_defaults (parsed : Request) : M Request :=
  parsed ← (if truthy_list (destinations parsed) then mret parsed
            else curs_out ← broker_attr "default_curs_out" default_curs_out;
                 dests ← currency_dicts curs_out;
                 mret {| sources := sources parsed;
                         destinations := Some dests;
                         extra := extra parsed |});
  if truthy_list (sources parsed) then mret parsed
  else cur_in ← broker_attr "default_cur_in" default_cur_in;
       mret {| sources := Some [ {| src_currency := cur_in; src_amount := float_one |} ];
               destinations := destinations parsed;
               extra := extra parsed |}.

Definition _parse_and_merge_input (user_input : option string) (empty : bool) : M Request :=
  base ← base_query empty;
  match user_input with
  | None => mret base
  | Some user_input =>
      if negb (PyStr.truthy user_input) || negb (PyStr.truthy (PyStr.strip user_input))
      then mret base
      else
        let user_input := PyStr.strip user_input in
        match float_of_str user_input with
        | Some amount =>
            cur_in ← broker_attr "default_cur_in" default_cur_in;
            curs_out ← broker_attr "default_curs_out" default_curs_out;
            dests ← currency_dicts curs_out;
            mret {| sources := Some [ {| src_currency := cur_in; src_amount := amount |} ];
                    destinations := Some dests;
                    extra := None |}
        | None =>
            try_except
              (parsed ← parser_parse user_input; apply_defaults parsed)
              is_ParseError
              (λ _, mret base)
        end
  end.

(** *** [query] (lines 19-67) *)

(** How the [try] statement of [query] ends: with a [return], or by
    running on to the statements after it. *)
Inductive Flow := Returned | FellThrough.

Definition status_item (err : string) : Item :=
  {| title := "Webservice failed"; subtitle := err; context := None;
     method := None; parameters := []; score := None; dont_hide := false |}.

Definition result_item (r : ConversionResult) : Item :=
  {| title := res_title r; subtitle := res_description r;
     context := Some (res_description r); method := Some item_action;
     parameters := [ParamFloat (res_amount r)]; score := Some 100;
     dont_hide := false |}.

Definition error_item (e : exn) : Item :=
  {| title := "Error"; subtitle := "An error occurred: " +:+ exn_msg e;
     context := None; method := None; parameters := []; score := None;
     dont_hide := false |}.

Definition update_item (user_input : string) (t : datetime) : Item :=
  {| title := "Update Currency"; subtitle := "Last updated at " +:+ isoformat t;
     context := None; method := Some update_rates;
     parameters := [ParamStr user_input]; score := None; dont_hide := true |}.

Definition truthy_error (e : option string) : bool :=
  match e with Some s => PyStr.truthy s | None => false end.

(** [self._update_update_item()] *)
Definition call_update_update_item : M unit :=
  λ st, (_update_update_item, set_calls (calls st ++ [CallUpdateUpdateItem]) st).

(** Lines 33-51: refresh, report a failed refresh, convert. *)
Definition refresh_and_convert (q : Request) : M Flow :=
  updated ← broker_call "tryUpdate" CallTryUpdate tryUpdate;
  (if updated : bool then call_update_update_item else mret tt);;
  err ← broker_attr "error" error;
  if truthy_error err then
    add_item (status_item (PyStr.str_opt err));;
    mret Returned
  else
    results ← broker_call "convert" (CallConvert q) (convert q);
    for_each results (λ r, add_item (result_item r));;
    mret FellThrough.

(** Lines 24-31: the request to convert, or [None] where the method
    returns at line 26 or 31. The dictionary [query] is never empty. *)
Definition checked_request (user_input : string) : M (option Request) :=
  template ← _parse_and_merge_input (Some user_input) true;
  if negb (_is_direct_request template) then mret None
  else
    q ← _parse_and_merge_input (Some user_input) false;
    match destinations q, sources q with
    | Some _, Some _ => mret (Some q)
    | _, _ => mret None
    end.

(** Lines 23-51: the body of the [try] statement. *)
Definition query_body (user_input : string) : M Flow :=
  r ← checked_request user_input;
  match r with
  | Some q => refresh_and_convert q
  | None => mret Returned
  end.

Definition query (user_input : string) : M unit :=
  log_msg DEBUG ("Processing query: '" +:+ user_input +:+ "'");;
  flow ← try_except (query_body user_input) is_Exception
           (λ e, if is_CurrencyError e
                 then log_msg ERROR ("Currency error: " +:+ exn_msg e);;
                      mret Returned
                 else log_msg ERROR "Unexpected error";;
                      add_item (error_item e);;
                      mret FellThrough);
  match flow with
  | Returned => mret tt
  | FellThrough =>
      (* lines 60-67, after the [try] statement *)
      t ← broker_attr "last_update" last_update;
      match t with
      | Some t => add_item (update_item user_input t)
      | None => raise (no_attribute "NoneType" "isoformat")
      end
  end.

(** *** [_read_config] (lines 178-493) *)

(** [UpdateFreq(s)] *)
Definition make_UpdateFreq (s : string) : M UpdateFreq :=
  match UpdateFreq_of_str s with
  | Some f => mret f
  | None => raise (Exn ValueError ("'" +:+ s +:+ "' is not a valid UpdateFreq"))
  end.

(** [self.update_freq = f] and [self.update_freq] *)
Definition assign_update_freq (f : UpdateFreq) : M unit :=
  λ st, (Ok tt, set_self_update_freq (Some f) st).
Definition self_update_freq_attr : M UpdateFreq :=
  λ st, match self_update_freq st with
        | Some f => (Ok f, st)
        | None => (Raise (no_attribute "CurrencyPP" "update_freq"), st)
        end.

(** Lines 198-200: the text of the frequency setting. *)
Definition update_freq_str (v : pyval) : string :=
  match v with
  | PyStr s => if PyStr.truthy s then s else "daily"
  | _ => "daily"
  end.

(** Lines 196-203. *)
Definition read_update_freq : M unit :=
  try_except
    (v ← settings_get "update_freq" (PyStr "daily");
     f ← make_UpdateFreq (update_freq_str v);
     assign_update_freq f)
    is_Exception
    (λ _, f ← make_UpdateFreq "daily"; assign_update_freq f).

(** Lines 207-210: the API key of the setting. *)
Definition app_id_key_of (v : pyval) : string :=
  match v with PyStr s => PyStr.strip s | _ => "" end.

(** Lines 205-212. *)
Definition read_app_id : M string :=
  try_except
    (v ← settings_get "app_id" (PyStr "");
     mret (app_id_key_of v))
    is_Exception
    (λ _, mret "").

(** [cache_dir = cache_path(self.name); cache_dir.mkdir(exist_ok=True)] *)
Definition make_cache_dir : M unit :=
  λ st, let st1 := set_calls (calls st ++ [CallMkdir]) st in
        if cache_dir_ok st then (Ok tt, st1)
        else (Raise (Exn OSError "cannot create the cache directory"), st1).

(** [self.broker = ExchangeRates(cache_dir, self.update_freq, app_id_key, self)]:
    a new object, with an identity no earlier object has. *)
Definition new_ExchangeRates (f : UpdateFreq) (app_id_key : string) : M unit :=
  λ st, let st1 := set_calls (calls st ++ [CallExchangeRates (next_id st)]) st in
        match ExchangeRates_new f app_id_key with
        | Ok b => (Ok tt, set_next_id (S (next_id st))
                            (set_broker (Some (next_id st, b)) st1))
        | Raise e => (Raise e, st1)
        end.

Definition construct_broker (app_id_key : string) : M unit :=
  f ← self_update_freq_attr;
  new_ExchangeRates f app_id_key.

(** Lines 233-258: an existing broker takes the new frequency and API
    key, loses its aliases and its error, and refreshes its rates
    when one of the two changed. The test of line 234 holds of every
    object this model can reach: the broker is an object and has the
    attribute. *)
Definition update_broker (app_id_key : string) : M unit :=
  log_msg INFO "Updating existing broker instance during settings reload";;
  bf ← broker_attr "update_freq" update_freq;
  f ← self_update_freq_attr;
  c1 ← (if bool_decide (bf ≠ f)
        then broker_set "update_freq" (set_update_freq f);; mret ["update frequency"]
        else mret []);
  svc ← broker_attr "expensive_service" expensive_service;
  c2 ← (match svc with
        | Some s =>
            if bool_decide (app_id s ≠ app_id_key)
            then broker_set "expensive_service"
                   (set_expensive_service (Some {| app_id := app_id_key |}));;
                 mret ["API key"]
            else mret []
        | None => mret []
        end);
  let changes := c1 ++ c2 in
  call_clear_aliases;;
  broker_set "error" (set_error None);;
  match changes with
  | [] => mret tt
  | _ :: _ =>
      log_msg INFO ("Config changes detected: " +:+ PyStr.join ", " changes);;
      call_force_update;;
      log_msg INFO "Forced rate refresh due to config changes"
  end.

(** Lines 214-261. [None]: the method returns here; otherwise the
    value of [is_first_init]. *)
Definition init_or_update_broker (app_id_key : string) : M (option bool) :=
  try_except
    (make_cache_dir;;
     b ← self_broker;
     let is_first_init := match b with None => true | Some _ => false end in
     (if is_first_init
      then construct_broker app_id_key;;
           log_msg INFO "Created new ExchangeRates broker instance"
      else update_broker app_id_key);;
     mret (Some is_first_init))
    is_Exception
    (λ e, log_msg ERROR ("Failed to initialize ExchangeRates broker: " +:+ exn_msg e);;
          mret None).

(** Lines 307-308. *)
Definition DEFAULT_OUTPUT_CUR : string := "USD EUR JPY".
Definition ULTIMATE_FALLBACK_CUR : string := "USD EUR".

Definition pyval_of (o : option string) : pyval :=
  match o with Some s => PyStr s | None => PyNone end.

(** Lines 270-272: the input currency of the setting, before
    [strip()]; [fallback] is ['USD' if is_first_init else current_input]. *)
Definition input_code_of (fallback : option string) (v : pyval) : option string :=
  match v with
  | PyStr s => if PyStr.truthy (PyStr.strip s) then Some s else fallback
  | _ => fallback
  end.

(** Lines 312-318: the output currencies of the setting. *)
Definition output_code_of (v : pyval) : string :=
  match v with
  | PyStr s => if PyStr.truthy (PyStr.strip s) then PyStr.strip s
               else DEFAULT_OUTPUT_CUR
  | _ => DEFAULT_OUTPUT_CUR
  end.

(** Lines 263-298. *)
Definition read_input_cur (is_first_init : bool) : M unit :=
  try_except
    (current_input ← broker_getattr default_cur_in None;
     log_msg DEBUG ("Current input currency before update: " +:+ PyStr.str_opt current_input);;
     let fallback := if is_first_init then Some "USD" else current_input in
     v ← settings_get "input_cur" (pyval_of fallback);
     input_code ← match input_code_of fallback v with
                  | Some s => mret (PyStr.strip s)
                  | None => raise (no_attribute "NoneType" "strip")
                  end;
     log_msg DEBUG ("New input currency from settings: " +:+ input_code);;
     if is_first_init then
       success ← call_set_default_cur_in input_code;
       if success : bool then mret tt
       else log_msg WARNING ("Failed to set initial input currency: " +:+ input_code);;
            _ ← call_set_default_cur_in "USD"; mret tt
     else
       match current_input with
       | Some cur =>
           if PyStr.truthy cur && bool_decide (input_code ≠ cur) then
             log_msg INFO ("Updating input currency from '" +:+ cur +:+ "' to '"
                           +:+ input_code +:+ "'");;
             success ← call_set_default_cur_in input_code;
             if success : bool then mret tt
             else log_msg WARNING ("Failed to update input currency to: " +:+ input_code);;
                  log_msg INFO ("Keeping existing input currency: " +:+ cur)
           else log_msg DEBUG "Input currency unchanged, skipping update"
       | None => log_msg DEBUG "Input currency unchanged, skipping update"
       end)
    is_Exception
    (λ e, if is_first_init
          then log_msg WARNING ("Error setting input currency, using USD: " +:+ exn_msg e);;
               _ ← call_set_default_cur_in "USD"; mret tt
          else log_msg ERROR ("Error updating input currency: " +:+ exn_msg e)).

(** Lines 310-367. *)
Definition read_output_cur (is_first_init : bool) : M unit :=
  try_except
    (v ← settings_get "output_cur" (PyStr DEFAULT_OUTPUT_CUR);
     let output_code := output_code_of v in
     current_currencies ← broker_getattr default_curs_out None;
     log_msg DEBUG ("Current output currencies before update: "
                    +:+ PyStr.str_opt_list current_currencies);;
     log_msg DEBUG ("New output currencies from settings: " +:+ output_code);;
     if is_first_init then
       success ← call_set_default_curs_out output_code;
       if success : bool then mret tt
       else
         log_msg WARNING ("Failed to set initial output currencies: " +:+ output_code);;
         success ← call_set_default_curs_out DEFAULT_OUTPUT_CUR;
         if success : bool then mret tt
         else
           log_msg WARNING ("Failed to set default output currencies: " +:+ DEFAULT_OUTPUT_CUR);;
           _ ← call_set_default_curs_out ULTIMATE_FALLBACK_CUR; mret tt
     else
       match current_currencies with
       | None =>
           log_msg ERROR "Broker lost currency state during reload";;
           success ← call_set_default_curs_out output_code;
           if success : bool then mret tt
           else _ ← call_set_default_curs_out ULTIMATE_FALLBACK_CUR; mret tt
       | Some curs =>
           let current_str := PyStr.join " " curs in
           if bool_decide (current_str ≠ output_code) then
             log_msg INFO ("Updating output currencies from '" +:+ current_str
                           +:+ "' to '" +:+ output_code +:+ "'");;
             success ← call_set_default_curs_out output_code;
             if success : bool
             then log_msg INFO "Successfully updated output currencies"
             else log_msg WARNING ("Failed to update to new output currencies: "
                                   +:+ output_code);;
                  log_msg INFO ("Keeping existing currencies: " +:+ current_str)
           else log_msg DEBUG "Output currencies unchanged, skipping update"
       end)
    is_Exception
    (λ e,
       existing_currencies ← broker_getattr default_curs_out None;
       if negb (truthy_list existing_currencies)
          || bool_decide (existing_currencies = Some ["USD"; "EUR"; "JPY"])
       then
         log_msg ERROR ("Error processing output currencies during bootstrap: "
                        +:+ exn_msg e +:+ ". Using safe default '"
                        +:+ ULTIMATE_FALLBACK_CUR +:+ "'.");;
         _ ← call_set_default_curs_out ULTIMATE_FALLBACK_CUR; mret tt
       else
         log_msg ERROR ("Error processing output currencies during runtime: "
                        +:+ exn_msg e +:+ ". Preserving existing settings: "
                        +:+ PyStr.str_opt_list existing_currencies +:+ ".")).

(** Lines 369-379 and 381-391: a list of keywords from the setting
    [key], or [dflt]. *)
Definition read_keywords (key dflt_string : string) (dflt : list string)
    : M (list string) :=
  try_except
    (v ← settings_get key (PyStr dflt_string);
     let s := match v with PyStr s => s | _ => dflt_string end in
     let s := PyStr.strip s in
     let seps := if PyStr.truthy s then PyStr.split s else dflt in
     mret (match seps with [] => dflt | _ :: _ => seps end))
    is_Exception
    (λ _, mret dflt).

Definition DEFAULT_ALIASES : string :=
  "EUR = euro euros" +:+ String "010" "usd = dollar dollars $ bucks".

(** Lines 421-428: one alias of a line. *)
Definition read_alias (validated_key alias : string) : M unit :=
  if PyStr.truthy alias then
    try_except
      (validated_alias ← call_validate_alias alias;
       match validated_alias with
       | Some a =>
           if PyStr.truthy a
           then broker_call "add_alias" (CallAddAlias a validated_key)
                  (add_alias a validated_key)
           else mret tt
       | None => mret tt
       end)
      is_Exception
      (λ _, mret tt)
  else mret tt.

(** Lines 401-432: one line of the aliases text. *)
Definition read_alias_line (line : string) : M unit :=
  try_except
    (let line := PyStr.strip line in
     match (if PyStr.truthy line then PyStr.split1 "=" line else None) with
     | None => mret tt
     | Some (part0, part1) =>
         let key := PyStr.strip part0 in
         let aliases_part := PyStr.strip part1 in
         if negb (PyStr.truthy key) || negb (PyStr.truthy aliases_part) then mret tt
         else
           try_except
             (validated_key ← call_validate_code key;
              match validated_key with
              | Some k =>
                  if PyStr.truthy k
                  then for_each (PyStr.split aliases_part) (read_alias k)
                  else mret tt
              | None => mret tt
              end)
             is_Exception
             (λ _, mret tt)
     end)
    is_Exception
    (λ _, mret tt).

(** Lines 393-434. *)
Definition read_aliases : M unit :=
  try_except
    (call_clear_aliases;;
     v ← settings_get "aliases" (PyStr DEFAULT_ALIASES);
     match v with
     | PyStr aliases_string =>
         if PyStr.truthy aliases_string
         then for_each (PyStr.splitlines aliases_string) read_alias_line
         else mret tt
     | _ => mret tt
     end)
    is_Exception
    (λ e, log_msg WARNING ("Error processing aliases: " +:+ exn_msg e)).

(** [self.parser = make_parser(p)] *)
Definition assign_parser (p : ParserProperties) : M unit :=
  λ st, let st1 := set_calls (calls st ++ [CallMakeParser p]) st in
        match make_parser p with
        | Ok ps => (Ok tt, set_parser (Some ps) st1)
        | Raise e => (Raise e, st1)
        end.

(** [self.parser = None] *)
Definition clear_parser : M unit :=
  λ st, (Ok tt, set_parser None st).

(** [p.default_cur_in = getattr(self.broker, 'default_cur_in', 'USD');
     p.default_curs_out = getattr(self.broker, 'default_curs_out', ['USD', 'EUR'])] *)
Definition with_currencies (p : ParserProperties) : M ParserProperties :=
  cur_in ← broker_getattr default_cur_in (Some "USD");
  curs_out ← broker_getattr default_curs_out (Some ["USD"; "EUR"]);
  mret {| pp_default_cur_in := cur_in; pp_default_curs_out := curs_out;
          pp_to_keywords := pp_to_keywords p; pp_sep_keywords := pp_sep_keywords p;
          pp_aliases := pp_aliases p |}.

(** The properties of the first attempt (lines 442-447). *)
Definition full_properties (separators dest_separators : list string)
    : M ParserProperties :=
  p ← with_currencies ParserProperties_new;
  al ← broker_getattr aliases ∅;
  mret {| pp_default_cur_in := pp_default_cur_in p;
          pp_default_curs_out := pp_default_curs_out p;
          pp_to_keywords := separators; pp_sep_keywords := dest_separators;
          pp_aliases := al |}.

(** Lines 436-482. *)
Definition init_parser (separators dest_separators : list string) : M unit :=
  parser_initialized ←
    try_except
      (properties ← full_properties separators dest_separators;
       assign_parser properties;;
       log_msg INFO "Parser initialized successfully with full configuration";;
       mret true)
      is_Exception
      (λ e,
         log_msg ERROR ("Full parser initialization failed: " +:+ exn_msg e);;
         try_except
           (minimal_props ← with_currencies ParserProperties_new;
            assign_parser minimal_props;;
            log_msg WARNING "Parser initialized with minimal configuration (currencies only)";;
            mret true)
           is_Exception
           (λ e2,
              log_msg ERROR ("Minimal parser initialization failed: " +:+ exn_msg e2);;
              try_except
                (assign_parser ParserProperties_new;;
                 log_msg WARNING "Parser initialized with ultimate fallback configuration";;
                 mret true)
                is_Exception
                (λ e3,
                   log_msg CRITICAL "All parser initialization attempts failed";;
                   clear_parser;;
                   mret false)));
  if parser_initialized : bool then mret tt
  else log_msg CRITICAL
         "Parser initialization completely failed - plugin may not function correctly".

(** Lines 484-493. *)
Definition log_configuration : M unit :=
  try_except
    (input_cur ← broker_getattr default_cur_in (Some "USD");
     output_curs ← broker_getattr default_curs_out (Some ["USD"]);
     al ← broker_getattr aliases ∅;
     let alias_count := size al in
     log_msg INFO ("Plugin configured with input currency: " +:+ PyStr.str_opt input_cur);;
     log_msg INFO ("Plugin configured with output currencies: "
                   +:+ PyStr.str_opt_list output_curs);;
     log_msg INFO ("Plugin configured with " +:+ pretty alias_count +:+ " aliases"))
    is_Exception
    (λ _, log_msg INFO "Plugin configuration completed").

(** Lines 263-391: the default currencies and the two keyword lists. *)
Definition read_currencies (is_first_init : bool) : M (list string * list string) :=
  read_input_cur is_first_init;;
  read_output_cur is_first_init;;
  separators ← read_keywords "separators" "to in :" ["to"; "in"; ":"];
  dest_separators ← read_keywords "destination_separators" "and & ," ["and"; "&"; ","];
  mret (separators, dest_separators).

(** Lines 196-391: everything up to the keyword lists. [None]: the
    method returned at line 261. *)
Definition configure_broker : M (option (list string * list string)) :=
  read_update_freq;;
  app_id_key ← read_app_id;
  r ← init_or_update_broker app_id_key;
  match r with
  | None => mret None
  | Some is_first_init => keywords ← read_currencies is_first_init; mret (Some keywords)
  end.

(** Lines 393-493: aliases, parser, closing log records. *)
Definition configure_parser (separators dest_separators : list string) : M unit :=
  read_aliases;;
  init_parser separators dest_separators;;
  log_configuration.

Definition _read_config : M unit :=
  r ← configure_broker;
  match r with
  | None => mret tt
  | Some (separators, dest_separators) => configure_parser separators dest_separators
  end.

(** *** [__init__] (lines 12-17) *)

Definition __init__ : M unit :=
  log_msg DEBUG "=== CurrencyPP Plugin Initializing ===";;
  _read_config.

(** *** [reload_settings] (lines 76-110) *)

(** [delattr(self, 'broker')], under [hasattr(self, 'broker')], which
    the class attribute makes true. *)
Definition delattr_broker : M unit :=
  λ st, match broker st with
        | Some _ => (Ok tt, set_broker None st)
        | None => (Raise (Exn AttributeError "broker"), st)
        end.

(** Lines 79-100: the body of the [try] statement. [old_state] is
    bound only when there is a broker at line 79. *)
Definition reload_body : M unit :=
  b ← self_broker;
  let old_state := (λ b, (default_cur_in b, default_curs_out b)) <$> b in
  settings_reload;;
  _read_config;;
  b ← self_broker;
  match b with
  | None => mret tt
  | Some _ =>
      match old_state with
      | None =>
          raise (Exn UnboundLocalError
                   "cannot access local variable 'old_state' where it is not associated with a value")
      | Some (old_input, old_output) =>
          new_input ← broker_attr "default_cur_in" default_cur_in;
          (if bool_decide (old_input ≠ new_input)
           then log_msg INFO ("Input currency updated: " +:+ PyStr.str_opt old_input
                              +:+ " -> " +:+ PyStr.str_opt new_input)
           else mret tt);;
          new_output ← broker_attr "default_curs_out" default_curs_out;
          (if bool_decide (old_output ≠ new_output)
           then log_msg INFO ("Output currencies updated: " +:+ PyStr.str_opt_list old_output
                              +:+ " -> " +:+ PyStr.str_opt_list new_output)
           else mret tt);;
          if bool_decide (old_input ≠ new_input) || bool_decide (old_output ≠ new_output)
          then call_force_update
          else mret tt
      end
  end.

Definition reload_settings : M unit :=
  try_except reload_body is_Exception
    (λ e,
       log_msg ERROR ("Settings reload failed: " +:+ exn_msg e);;
       try_except
         (delattr_broker;; _read_config)
         is_Exception
         (λ e2, log_msg CRITICAL ("Settings recovery failed: " +:+ exn_msg e2))).

End CurrencyPP.

(* ===================================================================== *)
(** ** A concrete set of collaborators *)
(* ===================================================================== *)

(** The plugin runs against this instance in the examples: binary64
    floats, a clock in seconds, and a broker and a parser written from
    the specification. The theorems further down hold of every
    instance; this one shows that their hypotheses can be met. *)
Module Demo.

(** *** Builtin types *)

Definition fl (n : Z) : PrimFloat.float := PrimFloat.of_uint63 (Uint63.of_Z n).

Definition digit (c : ascii) : option Z :=
  let n := nat_of_ascii c in
  if Nat.leb 48 n && Nat.leb n 57 then Some (Z.of_nat (n - 48)) else None.

(** A run of decimal digits: its value and length, and what follows. *)
Fixpoint digits (acc : Z) (len : nat) (s : string) : Z * nat * string :=
  match s with
  | String c r =>
      match digit c with
      | Some d => digits (10 * acc + d) (S len) r
      | None => (acc, len, s)
      end
  | EmptyString => (acc, len, s)
  end.

Definition lower_ascii (c : ascii) : ascii :=
  let n := nat_of_ascii c in
  if Nat.leb 65 n && Nat.leb n 90 then ascii_of_nat (n + 32) else c.
Definition upper_ascii (c : ascii) : ascii :=
  let n := nat_of_ascii c in
  if Nat.leb 97 n && Nat.leb n 122 then ascii_of_nat (n - 32) else c.
Fixpoint map_string (f : ascii → ascii) (s : string) : string :=
  match s with
  | EmptyString => EmptyString
  | String c r => String (f c) (map_string f r)
  end.
Definition lower : string → string := map_string lower_ascii.
Definition upper : string → string := map_string upper_ascii.

Definition strip_sign (s : string) : bool * string :=
  match s with
  | String "-" r => (true, r)
  | String "+" r => (false, r)
  | _ => (false, s)
  end.

Definition signed (neg : bool) (x : PrimFloat.float) : PrimFloat.float :=
  if neg then PrimFloat.opp x else x.

(** [float(s)] on the literals
    [[sign] (inf | infinity | nan | digits [. digits] [e [sign] digits])],
    correctly rounded while the digits stay below 2^53 and the power
    of ten below 10^22; any other text is rejected. *)
Definition float_of_str (s : string) : option PrimFloat.float :=
  let '(neg, body) := strip_sign (PyStr.strip s) in
  let word := lower body in
  if bool_decide (word = "inf") || bool_decide (word = "infinity")
  then Some (signed neg PrimFloat.infinity)
  else if bool_decide (word = "nan") then Some PrimFloat.nan
  else
    let '(int_part, n_int, rest) := digits 0 0 body in
    let '(mant, n_frac, rest) :=
      match rest with
      | String "." r => digits int_part 0 r
      | _ => (int_part, 0, rest)
      end in
    if Nat.eqb (n_int + n_frac) 0 then None
    else
      let finish (e : Z) :=
        let p := (e - Z.of_nat n_frac)%Z in
        Some (signed neg
                (if (0 <=? p)%Z then PrimFloat.mul (fl mant) (fl (10 ^ p))
                 else PrimFloat.div (fl mant) (fl (10 ^ (- p))))) in
      match rest with
      | EmptyString => finish 0%Z
      | String c r =>
          if bool_decide (lower_ascii c = "e"%char) then
            let '(eneg, r) := strip_sign r in
            let '(e, n_e, tail) := digits 0 0 r in
            if Nat.eqb n_e 0 || PyStr.truthy tail then None
            else finish (if eneg then (- e)%Z else e)
          else None
      end.

(** Modelled from the spec: the enumeration [UpdateFreq] of
    [exchange.py], with the values the spec names (3: "hourly / daily
    / weekly / manual"). *)
Inductive UpdateFreq := hourly | daily | weekly | manual.

#[export] Instance UpdateFreq_eq_dec : EqDecision UpdateFreq.
Proof. solve_decision. Defined.

Definition UpdateFreq_of_str (s : string) : option UpdateFreq :=
  if bool_decide (s = "hourly") then Some hourly
  else if bool_decide (s = "daily") then Some daily
  else if bool_decide (s = "weekly") then Some weekly
  else if bool_decide (s = "manual") then Some manual
  else None.

(** What the broker keeps besides its attributes: the time of day, in
    seconds, and what the remote rate service would answer now. *)
Record Internals := {
  clock : Z;
  remote : Result (gmap string PrimFloat.float);
}.

Definition isoformat (t : Z) : string := "1970-01-01T00:00:00+" +:+ pretty t +:+ "s".

(** A parser is the properties it was made from. *)
#[export] Instance types : PyTypes :=
  Build_PyTypes PrimFloat.float Z UpdateFreq ParserProperties Internals.

(** *** The registry (spec, 4.1) *)

Definition known_codes : list string := ["USD"; "EUR"; "JPY"; "GBP"; "CHF"].

(** Modelled from the spec: [validateCode] "normalizes
    case/whitespace, checks membership in the known code set" and
    fails with InvalidCurrency otherwise. *)
Definition validate_code (s : string) : Result (option string) :=
  let code := upper (PyStr.strip s) in
  if bool_decide (code ∈ known_codes) then Ok (Some code)
  else Raise (Exn CurrencyError ("InvalidCurrency: " +:+ s)).

(** Modelled from the spec: [validateAlias] "rejects empty tokens and
    tokens equal to any canonical code"; aliases are case-insensitive
    and kept in lower case. *)
Definition validate_alias (s : string) : Result (option string) :=
  let a := lower (PyStr.strip s) in
  if negb (PyStr.truthy a) || bool_decide (upper a ∈ known_codes)
  then Raise (Exn CurrencyError ("InvalidAlias: " +:+ s))
  else Ok (Some a).

(** *** The broker (spec, 4.2 and 4.3) *)

Definition set_rates (r : gmap string PrimFloat.float) (t : Z) (b : ExchangeRates)
    : ExchangeRates :=
  {| default_cur_in := default_cur_in b; default_curs_out := default_curs_out b;
     update_freq := update_freq b; expensive_service := expensive_service b;
     aliases := aliases b; rates := r; last_update := Some t;
     error := None; internals := internals b |}.

(** Modelled from the spec: an unconditional fetch. "On success
    replaces RateTable, clears lastError, sets lastUpdate = now; on
    failure sets lastError, leaves RateTable unchanged". *)
Definition fetch (b : ExchangeRates) : ExchangeRates :=
  match remote (internals b) with
  | Ok table => set_rates table (clock (internals b)) b
  | Raise e => set_error (Some (exn_msg e)) b
  end.

Definition force_update (b : ExchangeRates) : Result unit * ExchangeRates :=
  (Ok tt, fetch b).

(** The staleness threshold of a frequency, in seconds. *)
Definition threshold (f : UpdateFreq) : option Z :=
  match f with
  | hourly => Some 3600%Z
  | daily => Some 86400%Z
  | weekly => Some 604800%Z
  | manual => None
  end.

Definition stale (b : ExchangeRates) : bool :=
  match threshold (update_freq b), last_update b with
  | Some d, Some t => (d <=? clock (internals b) - t)%Z
  | Some _, None => true
  | None, _ => false
  end.

(** Modelled from the spec: [tryUpdate] fetches when the table is
    stale and returns true (an update was attempted); returns false
    and does nothing when it is fresh. *)
Definition tryUpdate (b : ExchangeRates) : Result bool * ExchangeRates :=
  if stale b then (Ok true, fetch b) else (Ok false, b).

(** Modelled from the spec: [setDefaultSourceCurrency] "validates via
    Registry; on success mutates state and returns true; on invalid
    input returns false and leaves prior value untouched". *)
Definition set_default_cur_in (s : string) (b : ExchangeRates)
    : Result bool * ExchangeRates :=
  match validate_code s with
  | Ok (Some c) => (Ok true, set_default_in (Some c) b)
  | _ => (Ok false, b)
  end.

Fixpoint validate_all (l : list string) : option (list string) :=
  match l with
  | [] => Some []
  | s :: r =>
      match validate_code s, validate_all r with
      | Ok (Some c), Some cs => Some (c :: cs)
      | _, _ => None
      end
  end.

(** Modelled from the spec: [setDefaultDestinationCurrencies] "parses
    whitespace-separated codes, validates each; all-or-nothing". *)
Definition set_default_curs_out (s : string) (b : ExchangeRates)
    : Result bool * ExchangeRates :=
  match validate_all (PyStr.split s) with
  | Some (c :: cs) => (Ok true, set_default_out (Some (c :: cs)) b)
  | _ => (Ok false, b)
  end.

(** Modelled from the spec: [addAlias], [clearAliases] "mutate the
    Alias mapping". *)
Definition add_alias (a code : string) (b : ExchangeRates) : Result unit * ExchangeRates :=
  (Ok tt, set_aliases (<[a := code]> (aliases b)) b).
Definition clear_aliases (b : ExchangeRates) : Result unit * ExchangeRates :=
  (Ok tt, set_aliases ∅ b).

(** [a * rate[Cd] / rate[Cs]] for one source and one destination. *)
Definition convert_one (b : ExchangeRates) (s : Source) (d : Destination)
    : option ConversionResult :=
  cs ← src_currency s;
  rs ← rates b !! cs;
  rd ← rates b !! dst_currency d;
  Some {| res_title := dst_currency d;
          res_description := cs +:+ " to " +:+ dst_currency d;
          res_amount := PrimFloat.div (PrimFloat.mul (src_amount s) rd) rs |}.

(** Modelled from the spec: [convert] gives one result for each
    source and each destination, and fails with RateUnavailable "if
    either currency is absent from the current RateTable". *)
Definition convert (q : Request) (b : ExchangeRates)
    : Result (list ConversionResult) * ExchangeRates :=
  let pairs := s ← default [] (sources q); d ← default [] (destinations q); [(s, d)] in
  match mapM (λ p, convert_one b p.1 p.2) pairs with
  | Some l => (Ok l, b)
  | None => (Raise (Exn CurrencyError "RateUnavailable"), b)
  end.

(** The rate table the remote service serves in the examples. *)
Definition table : gmap string PrimFloat.float :=
  <["USD" := fl 1]> (<["EUR" := PrimFloat.div (fl 9) (fl 10)]> (<["JPY" := fl 150]> ∅)).

(** Modelled from the spec: a new broker has the class's defaults,
    the frequency and key it is given, no alias, and the table its
    cache holds. *)
Definition new_broker (f : UpdateFreq) (key : string) : ExchangeRates :=
  {| default_cur_in := Some "USD";
     default_curs_out := Some ["USD"; "EUR"; "JPY"];
     update_freq := f;
     expensive_service := Some {| app_id := key |};
     aliases := ∅;
     rates := table;
     last_update := Some 0%Z;
     error := None;
     internals := {| clock := 60; remote := Ok table |} |}.

Definition ExchangeRates_new (f : UpdateFreq) (key : string) : Result ExchangeRates :=
  Ok (new_broker f key).

(** *** The parser (spec, 4.4) *)

(** A currency token: "matched case-insensitively against canonical
    codes first, then the Alias mapping". *)
Definition currency_of (p : ParserProperties) (tok : string) : option string :=
  if bool_decide (upper tok ∈ known_codes) then Some (upper tok)
  else pp_aliases p !! lower tok.

(** A destination currency, then any number of (separator,
    destination currency), to the end of the input. *)
Fixpoint parse_dests (p : ParserProperties) (toks : list string)
    : option (list Destination) :=
  match toks with
  | [tok] => c ← currency_of p tok; Some [ {| dst_currency := c |} ]
  | tok :: sep :: rest =>
      c ← currency_of p tok;
      if bool_decide (sep ∈ pp_sep_keywords p)
      then ds ← parse_dests p rest; Some ({| dst_currency := c |} :: ds)
      else None
  | [] => None
  end.

(** Modelled from the spec: the grammar of 4.4, an optional amount,
    an optional source currency, and optionally a "to" separator
    followed by destination currencies with separators between
    them, over the whitespace-separated tokens of the input; "any
    input that matches no grammar rule fails with ParseError". *)
Definition parse (p : ParserProperties) (text : string) : Result Request :=
  let toks := PyStr.split text in
  let '(amount, toks) :=
    match toks with
    | tok :: rest =>
        match float_of_str tok with
        | Some a => (Some a, rest)
        | None => (None, toks)
        end
    | [] => (None, toks)
    end in
  let '(source, toks) :=
    match toks with
    | tok :: rest =>
        match currency_of p tok with
        | Some c => (Some c, rest)
        | None => (None, toks)
        end
    | [] => (None, toks)
    end in
  let srcs :=
    match amount, source with
    | None, None => None
    | _, _ => Some [ {| src_currency := source; src_amount := default (fl 1) amount |} ]
    end in
  match toks with
  | [] => Ok {| sources := srcs; destinations := None; extra := None |}
  | sep :: rest =>
      if bool_decide (sep ∈ pp_to_keywords p) then
        match parse_dests p rest with
        | Some ds => Ok {| sources := srcs; destinations := Some ds; extra := None |}
        | None => Raise (Exn ParseError ("expected a currency after '" +:+ sep +:+ "'"))
        end
      else Raise (Exn ParseError ("unexpected '" +:+ sep +:+ "'"))
  end.

Definition properties : ParserProperties :=
  {| pp_default_cur_in := Some "USD";
     pp_default_curs_out := Some ["USD"; "EUR"; "JPY"];
     pp_to_keywords := ["to"; "in"; ":"];
     pp_sep_keywords := ["and"; "&"; ","];
     pp_aliases := ∅ |}.

#[export] Instance collab : Collab :=
  Build_Collab types float_of_str (fl 1) isoformat UpdateFreq_eq_dec UpdateFreq_of_str
    ExchangeRates_new tryUpdate force_update convert
    clear_aliases add_alias set_default_cur_in set_default_curs_out
    validate_code validate_alias properties Ok parse (Ok tt).

(** *** Plugin objects *)

(** The object before [__init__] has run, with the given settings file. *)
Definition blank (cfg : gmap string pyval) (disk_ok : bool) : Plugin :=
  {| broker := None; self_update_freq := None; parser := None;
     settings := cfg; settings_file := Ok cfg; cache_dir_ok := disk_ok;
     next_id := 0; calls := []; log := []; items := [] |}.

Definition cfg : gmap string pyval :=
  <["input_cur" := PyStr "USD"]> (<["output_cur" := PyStr "EUR JPY"]> ∅).

(** The plugin after a start with the settings [cfg]. *)
Definition started : Plugin := snd (__init__ (blank cfg true)).

(** The plugin after a start during which the cache directory could
    not be made: it has no broker. *)
Definition unstarted : Plugin := snd (__init__ (blank cfg false)).

(** [started], at a moment when [settings.json] cannot be read:
    [self.settings.reload()] raises. *)
Definition unreadable : Plugin :=
  {| broker := broker started; self_update_freq := self_update_freq started;
     parser := parser started; settings := settings started;
     settings_file := Raise (Exn OtherException "settings.json: invalid JSON");
     cache_dir_ok := true; next_id := next_id started;
     calls := calls started; log := log started; items := items started |}.

(** [started], after the user has set the output currencies to GBP
    in [settings.json]. *)
Definition cfg_gbp : gmap string pyval := <["output_cur" := PyStr "GBP"]> cfg.

Definition edited : Plugin :=
  {| broker := broker started; self_update_freq := self_update_freq started;
     parser := parser started; settings := settings started;
     settings_file := Ok cfg_gbp;
     cache_dir_ok := true; next_id := next_id started;
     calls := calls started; log := log started; items := items started |}.

(** [started], after the user has replaced the aliases text, at a
    moment when the cache directory cannot be made. *)
Definition cfg_quid : gmap string pyval := <["aliases" := PyStr "GBP = quid"]> cfg.

Definition locked : Plugin :=
  {| broker := broker started; self_update_freq := self_update_freq started;
     parser := parser started; settings := cfg_quid;
     settings_file := Ok cfg_quid;
     cache_dir_ok := false; next_id := next_id started;
     calls := calls started; log := log started; items := items started |}.



(** [unstarted], at a later moment when the cache directory can be
    made. *)
Definition retried : Plugin :=
  {| broker := broker unstarted; self_update_freq := self_update_freq unstarted;
     parser := parser unstarted; settings := settings unstarted;
     settings_file := Ok cfg;
     cache_dir_ok := true; next_id := next_id unstarted;
     calls := calls unstarted; log := log unstarted; items := items unstarted |}.

(** A broker that is updated by hand only and never was. *)
Definition untouched (b : ExchangeRates) : ExchangeRates :=
  {| default_cur_in := default_cur_in b; default_curs_out := default_curs_out b;
     update_freq := manual; expensive_service := expensive_service b;
     aliases := aliases b; rates := rates b; last_update := None;
     error := None; internals := internals b |}.

(** [started], with such a broker. *)
Definition never_updated : Plugin :=
  set_broker ((λ ib, (ib.1, untouched ib.2)) <$> broker started) started.

(** The settings with an output currency the registry does not know. *)
Definition cfg_bad : gmap string pyval := <["output_cur" := PyStr "EUR XXX"]> cfg.

(** The plugin during a first start with [cfg_bad], when the broker
    has just been constructed (line 227). *)
Definition constructed : Plugin :=
  snd (init_or_update_broker "" (snd (read_update_freq (blank cfg_bad true)))).

(** The parser of a plugin that has one (and otherwise the one of
    [ParserProperties()]). *)
Definition parser_of (st : Plugin) : ParserProperties :=
  match parser st with
  | Some p => p
  | None => properties
  end.

(** The broker of a plugin that has one (and otherwise a new one). *)
Definition broker_of (st : Plugin) : ExchangeRates :=
  match broker st with
  | Some (_, b) => b
  | None => new_broker daily ""
  end.

End Demo.

(* ===================================================================== *)
(** ** Vocabulary of the statements *)
(* ===================================================================== *)

Section Vocabulary.
Context `{Collab}.

(** The template request: nothing filled in (line 135, [empty=True]). *)
Definition template_request : Request :=
  {| sources := None; destinations := None; extra := None |}.

(** The request for the amount [a] of the broker's default source
    currency into the default destinations [outs]. *)
Definition default_request (b : ExchangeRates) (a : pyfloat) (outs : list string)
    : Request :=
  {| sources := Some [ {| src_currency := default_cur_in b; src_amount := a |} ];
     destinations := Some (Build_Destination <$> outs);
     extra := None |}.

(** What a run added to the three records of the plugin's actions. *)
Definition new_calls (st st' : Plugin) : list Call :=
  drop (length (calls st)) (calls st').
Definition new_items (st st' : Plugin) : list Item :=
  drop (length (items st)) (items st').
Definition new_log (st st' : Plugin) : list (Level * string) :=
  drop (length (log st)) (log st').

Definition is_convert (c : Call) : bool :=
  match c with CallConvert _ => true | _ => false end.
Definition is_force_update (c : Call) : bool :=
  match c with CallForceUpdate => true | _ => false end.
Definition is_construction (c : Call) : bool :=
  match c with CallExchangeRates _ => true | _ => false end.
Definition is_parse (c : Call) : bool :=
  match c with CallParse _ => true | _ => false end.

(** Lines 263-493: what [_read_config] does once the broker is there. *)
Definition configure_rest (is_first_init : bool) : M unit :=
  keywords ← read_currencies is_first_init;
  configure_parser keywords.1 keywords.2.

(** The properties of the second attempt (lines 458-460): the
    broker's currencies, or else ['USD'] and [['USD', 'EUR']]. *)
Definition minimal_properties_of (st : Plugin) : ParserProperties :=
  {| pp_default_cur_in :=
       match broker st with Some (_, b) => default_cur_in b | None => Some "USD" end;
     pp_default_curs_out :=
       match broker st with
       | Some (_, b) => default_curs_out b
       | None => Some ["USD"; "EUR"]
       end;
     pp_to_keywords := pp_to_keywords ParserProperties_new;
     pp_sep_keywords := pp_sep_keywords ParserProperties_new;
     pp_aliases := pp_aliases ParserProperties_new |}.

(** The properties of the first attempt (lines 442-447): those, the
    keywords of the settings and the broker's aliases. *)
Definition full_properties_of (st : Plugin) (separators dest_separators : list string)
    : ParserProperties :=
  {| pp_default_cur_in := pp_default_cur_in (minimal_properties_of st);
     pp_default_curs_out := pp_default_curs_out (minimal_properties_of st);
     pp_to_keywords := separators;
     pp_sep_keywords := dest_separators;
     pp_aliases := match broker st with Some (_, b) => aliases b | None => ∅ end |}.

(** The messages of the CRITICAL records among log records. *)
Definition critical (entries : list (Level * string)) : list string :=
  omap (λ e, match e.1 with CRITICAL => Some e.2 | _ => None end) entries.

(** *** Frames: what a run may do *)

(** A frame bounds a run: how the broker's state and the settings may
    change, which calls may be made and which items added. *)
Record Frame := {
  fr_broker : ExchangeRates → ExchangeRates → Prop;
  fr_settings : gmap string pyval → gmap string pyval → Prop;
  fr_call : Call → Prop;
  fr_item : Item → Prop;
}.

Class FrameOrder (F : Frame) : Prop := {
  fr_refl : ∀ b, fr_broker F b b;
  fr_trans : ∀ b1 b2 b3, fr_broker F b1 b2 → fr_broker F b2 b3 → fr_broker F b1 b3;
  fr_settings_refl : ∀ s, fr_settings F s s;
  fr_settings_trans : ∀ s1 s2 s3,
    fr_settings F s1 s2 → fr_settings F s2 s3 → fr_settings F s1 s3;
}.

(** [st'] comes from [st] within the frame: the broker is the same
    object, changed as allowed; calls and items were only added, and
    only allowed ones; no object was constructed; the settings changed
    as allowed, and the settings file and the disk are as they were. *)
Record within (F : Frame) (st st' : Plugin) : Prop := {
  within_broker : ∀ id b, broker st = Some (id, b) →
                  ∃ b', broker st' = Some (id, b') ∧ fr_broker F b b';
  within_calls : ∃ l, calls st' = calls st ++ l ∧ Forall (fr_call F) l;
  within_items : ∃ l, items st' = items st ++ l ∧ Forall (fr_item F) l;
  within_next_id : next_id st' = next_id st;
  within_settings : fr_settings F (settings st) (settings st');
  within_settings_file : settings_file st' = settings_file st;
  within_cache_dir_ok : cache_dir_ok st' = cache_dir_ok st;
}.

(** A body is safe in a frame when, run on a plugin that has a broker,
    it stays within the frame; with [total] it also returns. *)
Definition safe (F : Frame) (total : bool) {A} (m : M A) : Prop :=
  ∀ st, is_Some (broker st) →
        within F st (snd (m st)) ∧ (total = true → ∃ a, fst (m st) = Ok a).

(** The broker stays the object it is, and none is constructed. *)
Definition same_object : Frame :=
  {| fr_broker := λ _ _, True;
     fr_settings := λ _ _, True;
     fr_call := λ c, is_construction c = false;
     fr_item := λ _, True |}.

(** The broker is left as it is, no item is added and no conversion
    is asked for. *)
Definition before_conversion : Frame :=
  {| fr_broker := eq;
     fr_settings := λ _ _, True;
     fr_call := λ c, is_convert c = false;
     fr_item := λ _, False |}.


(** C2 as the specification words it: a reload keeps the broker object. *)
Definition reload_keeps_broker (st : Plugin) : Prop :=
  ∀ id b, broker st = Some (id, b) →
    ∃ b', broker (snd (reload_settings st)) = Some (id, b').

(** The configuration of a broker: frequency, API key, defaults. *)
Definition same_config (b b' : ExchangeRates) : Prop :=
  update_freq b' = update_freq b
  ∧ expensive_service b' = expensive_service b
  ∧ default_cur_in b' = default_cur_in b
  ∧ default_curs_out b' = default_curs_out b.

(** No rate refresh is forced, the settings stay, and the broker keeps
    its frequency and its API key. *)
Definition no_refresh : Frame :=
  {| fr_broker := λ b b', update_freq b' = update_freq b
                          ∧ expensive_service b' = expensive_service b;
     fr_settings := eq;
     fr_call := λ c, is_force_update c = false;
     fr_item := λ _, True |}.

(** As [no_refresh], and the broker keeps its defaults and its rate
    table too. *)
Definition quiet : Frame :=
  {| fr_broker := λ b b', same_config b b' ∧ rates b' = rates b;
     fr_settings := eq;
     fr_call := λ c, is_force_update c = false;
     fr_item := λ _, True |}.

(** The settings stay as they are. *)
Definition settings_kept : Frame :=
  {| fr_broker := λ _ _, True;
     fr_settings := eq;
     fr_call := λ _, True;
     fr_item := λ _, True |}.

(** *** The contract of the broker *)

(** Modelled from the spec: what sections 4.1 to 4.3 say of the
    broker's methods, whose code ([exchange.py]) is not in the sources.
    ['daily'] is a frequency (6); [clearAliases] and [addAlias]
    "mutate the Alias mapping" and nothing else; [forceUpdate] attempts
    a fetch, whose failure is recorded and "not thrown", and touches
    the rate table, the time stamp and the error only; the two setters
    return a boolean, and set the one default they are named after. *)
Class BrokerContract : Prop := {
  daily_is_valid : is_Some (UpdateFreq_of_str "daily");
  clear_aliases_spec : ∀ b, clear_aliases b = (Ok tt, set_aliases ∅ b);
  add_alias_spec : ∀ a c b,
    add_alias a c b = (Ok tt, set_aliases (<[a := c]> (aliases b)) b);
  force_update_returns : ∀ b, fst (force_update b) = Ok tt;
  force_update_frame : ∀ b, same_config b (snd (force_update b));
  set_default_cur_in_returns : ∀ s b, ∃ r, fst (set_default_cur_in s b) = Ok r;
  set_default_cur_in_frame : ∀ s b,
    update_freq (snd (set_default_cur_in s b)) = update_freq b
    ∧ expensive_service (snd (set_default_cur_in s b)) = expensive_service b;
  set_default_curs_out_returns : ∀ s b, ∃ r, fst (set_default_curs_out s b) = Ok r;
  set_default_curs_out_frame : ∀ s b,
    update_freq (snd (set_default_curs_out s b)) = update_freq b
    ∧ expensive_service (snd (set_default_curs_out s b)) = expensive_service b;
}.

(** *** A configuration snapshot that says what the broker already has *)


(** *** The alias mapping a text stands for *)









End Vocabulary.

(* ===================================================================== *)
(** ** Vocabulary of the further properties *)
(* ===================================================================== *)

Section MoreVocabulary.
Context `{Collab}.

(** The request lines 139-145 fall back on when the broker cannot be
    read. *)
Definition fallback_request : Request :=
  {| sources := Some [ {| src_currency := Some "USD"; src_amount := float_one |} ];
     destinations := Some [ {| dst_currency := "EUR" |} ];
     extra := None |}.

(** The calls [query] makes: the refresh, the conversion, the parser
    and the update hook. *)
Definition is_query_call (c : Call) : bool :=
  match c with
  | CallTryUpdate | CallConvert _ | CallParse _ | CallUpdateUpdateItem => true
  | _ => false
  end.

(** The broker is the same object, in whatever state its methods
    leave it; the settings stay; only the calls of [query] are made. *)
Definition conversion_only : Frame :=
  {| fr_broker := λ _ _, True;
     fr_settings := eq;
     fr_call := λ c, is_query_call c = true;
     fr_item := λ _, True |}.

(** Nothing but calls of the parser: the broker is left as it is, and
    no item is added. *)
Definition parsing_only : Frame :=
  {| fr_broker := eq;
     fr_settings := eq;
     fr_call := λ c, is_parse c = true;
     fr_item := λ _, False |}.

(** The text of a keyword setting: the setting when it is a string,
    and otherwise the default text (lines 371-373, 383-385). *)
Definition keyword_text (st : Plugin) (key dflt_string : string) : string :=
  match settings st !! key with
  | Some (PyStr t) => t
  | _ => dflt_string
  end.

(** The text lines 270-273 compute on a reload, when they compute one. *)
Definition reload_input_code (st : Plugin) (b : ExchangeRates) : option string :=
  PyStr.strip <$> input_code_of (default_cur_in b)
                    (default (pyval_of (default_cur_in b)) (settings st !! "input_cur")).

(** Whether lines 285-290 ask the broker for a new input currency,
    and for which. *)
Definition input_cur_update (st : Plugin) (b : ExchangeRates) : option string :=
  match default_cur_in b, reload_input_code st b with
  | Some cur, Some code =>
      if PyStr.truthy cur && bool_decide (code ≠ cur) then Some code else None
  | _, _ => None
  end.

(** The text lines 270-273 compute on a first start. *)
Definition first_input_code (st : Plugin) : string :=
  match settings st !! "input_cur" with
  | Some (PyStr s) => if PyStr.truthy (PyStr.strip s) then PyStr.strip s else "USD"
  | _ => "USD"
  end.

End MoreVocabulary.

(* ===================================================================== *)
(** ** Running a method body *)
(* ===================================================================== *)

(** Unfolds the monad's operations, so that a body applied to a state
    computes. *)
Ltac run :=
  unfold mbind, M_bind, bind, mret, M_ret, ret, raise, try_except, when.

(** Computes, reading the state with the given equations as it goes. *)
Tactic Notation "exec" "with" constr(H1) :=
  repeat (rewrite ?H1; simpl).
Tactic Notation "exec" "with" constr(H1) constr(H2) :=
  repeat (rewrite ?H1, ?H2; simpl).
Tactic Notation "exec" "with" constr(H1) constr(H2) constr(H3) :=
  repeat (rewrite ?H1, ?H2, ?H3; simpl).
Tactic Notation "exec" "with" constr(H1) constr(H2) constr(H3) constr(H4) :=
  repeat (rewrite ?H1, ?H2, ?H3, ?H4; simpl).

Section Running.
Context `{Collab}.

Lemma bind_run {A B} (m : M A) (k : A → M B) st :
  (m ≫= k) st
  = match m st with
    | (Ok a, st') => k a st'
    | (Raise e, st') => (Raise e, st')
    end.
Proof. reflexivity. Qed.

Lemma bind_Ok {A B} (m : M A) (k : A → M B) st a st' :
  m st = (Ok a, st') → (m ≫= k) st = k a st'.
Proof. intros E. rewrite bind_run, E. reflexivity. Qed.

Lemma bind_Raise {A B} (m : M A) (k : A → M B) st e st' :
  m st = (Raise e, st') → (m ≫= k) st = (Raise e, st').
Proof. intros E. rewrite bind_run, E. reflexivity. Qed.

Lemma try_except_Ok {A} (m : M A) cls h st a st' :
  m st = (Ok a, st') → try_except m cls h st = (Ok a, st').
Proof. intros E. unfold try_except. rewrite E. reflexivity. Qed.

Lemma try_except_caught {A} (m : M A) cls h st e st' :
  m st = (Raise e, st') → cls e = true → try_except m cls h st = h e st'.
Proof. intros E C. unfold try_except. rewrite E, C. reflexivity. Qed.

Lemma try_except_passed {A} (m : M A) cls h st e st' :
  m st = (Raise e, st') → cls e = false → try_except m cls h st = (Raise e, st').
Proof. intros E C. unfold try_except. rewrite E, C. reflexivity. Qed.

Lemma truthy_strip s : PyStr.truthy (PyStr.strip s) = true → PyStr.truthy s = true.
Proof. destruct s; [discriminate | reflexivity]. Qed.

(** The string methods, on texts of the settings. *)
Example strip_ex : PyStr.strip "  100 usd	" = "100 usd".
Proof. reflexivity. Qed.

Example split_ex : PyStr.split " to  in :  " = ["to"; "in"; ":"].
Proof. reflexivity. Qed.

Example splitlines_ex :
  PyStr.splitlines ("EUR = euro euros" +:+ String "010" "usd = dollar" +:+ String "010" "")
  = ["EUR = euro euros"; "usd = dollar"].
Proof. reflexivity. Qed.

Example split1_ex : PyStr.split1 "="%char "EUR = euro = x" = Some ("EUR ", " euro = x").
Proof. reflexivity. Qed.

Example join_ex : PyStr.join " " ["USD"; "EUR"; "JPY"] = "USD EUR JPY".
Proof. reflexivity. Qed.

End Running.

(* ===================================================================== *)
(** ** Requests: [_parse_and_merge_input] and [_is_direct_request] *)
(* ===================================================================== *)

Section Requests.
Context `{Collab}.

(** With a broker that has its default destinations, the base query
    is the template under [empty=True] and the default request for
    the amount 1.0 otherwise; nothing is logged. *)
Lemma base_query_run st empty id b outs :
  broker st = Some (id, b) → default_curs_out b = Some outs →
  base_query empty st
  = (Ok (if empty then template_request else default_request b float_one outs), st).
Proof.
  intros Hb Ho. unfold base_query, broker_attr, currency_dicts. run.
  destruct empty; exec with Hb Ho; reflexivity.
Qed.

(** Under [empty=True] the base query is the template whatever the
    state of the plugin, broker or no broker. *)
Lemma base_query_template st :
  ∃ st', base_query true st = (Ok template_request, st')
         ∧ broker st' = broker st ∧ parser st' = parser st
         ∧ calls st' = calls st ∧ items st' = items st.
Proof.
  unfold base_query, broker_attr, log_msg. run.
  destruct (broker st) as [[id b]|] eqn:Hb; exec with Hb; eauto 10.
Qed.

(** The numeric fast path (lines 152-159), for either value of the flag. *)
Lemma fast_path_run st user_input a empty id b outs :
  broker st = Some (id, b) → default_curs_out b = Some outs →
  PyStr.truthy (PyStr.strip user_input) = true →
  float_of_str (PyStr.strip user_input) = Some a →
  _parse_and_merge_input (Some user_input) empty st
  = (Ok (default_request b a outs), st).
Proof.
  intros Hb Ho Ht Hf. unfold _parse_and_merge_input.
  erewrite bind_Ok by (eapply base_query_run; eassumption).
  rewrite (truthy_strip _ Ht), Ht. simpl. rewrite Hf.
  unfold broker_attr, currency_dicts. run. exec with Hb Ho. reflexivity.
Qed.

(** The grammar path (lines 163-176): what [_parse_and_merge_input]
    does with a text that is not blank and not a number. *)
Lemma grammar_path_run st user_input empty :
  PyStr.truthy (PyStr.strip user_input) = true →
  float_of_str (PyStr.strip user_input) = None →
  _parse_and_merge_input (Some user_input) empty st
  = (base ← base_query empty;
     try_except
       (parsed ← parser_parse (PyStr.strip user_input); apply_defaults parsed)
       is_ParseError (λ _, mret base)) st.
Proof.
  intros Ht Hf. unfold _parse_and_merge_input. rewrite !bind_run.
  destruct (base_query empty st) as [[base|e] st1]; [|reflexivity].
  rewrite (truthy_strip _ Ht), Ht. simpl. rewrite Hf. reflexivity.
Qed.

End Requests.

Section RequestClaims.
Context `{Collab}.

(** The base query always comes back: its handler catches whatever
    the first attempt raises, and only logs. *)
Lemma base_query_total empty st :
  ∃ q st', base_query empty st = (Ok q, st')
           ∧ broker st' = broker st ∧ parser st' = parser st
           ∧ calls st' = calls st ∧ items st' = items st.
Proof.
  unfold base_query, broker_attr, currency_dicts, log_msg. run.
  destruct (broker st) as [[id b]|] eqn:Hb; exec with Hb; [|eauto 10].
  destruct empty; exec with Hb; [eauto 10|].
  destruct (default_curs_out b); exec with Hb; eauto 10.
Qed.

(** A text the parser rejects with [ParseError] gets the base query,
    and the call of the parser is all that happened besides. *)
Lemma parse_rejected_run st user_input empty p e :
  PyStr.truthy (PyStr.strip user_input) = true →
  float_of_str (PyStr.strip user_input) = None →
  parser st = Some p → parse p (PyStr.strip user_input) = Raise e →
  is_ParseError e = true →
  ∃ q st1, base_query empty st = (Ok q, st1)
    ∧ _parse_and_merge_input (Some user_input) empty st
      = (Ok q, set_calls (calls st1 ++ [CallParse (PyStr.strip user_input)]) st1).
Proof.
  intros Ht Hf Hp He Hc. rewrite grammar_path_run by assumption.
  destruct (base_query_total empty st) as (q & st1 & Hq & _ & Hp1 & _).
  exists q, st1. split; [exact Hq|].
  rewrite (bind_Ok _ _ _ _ _ Hq). unfold parser_parse. run.
  rewrite Hp1, Hp, He. simpl. rewrite Hc. reflexivity.
Qed.

(** Whatever [query] raises is an [AttributeError]: the [try]
    statement catches every exception of its body, and the statement
    after it only reads [self.broker.last_update]. *)
Lemma query_raises_only_AttributeError user_input st e :
  fst (query user_input st) = Raise e → exn_cls e = AttributeError.
Proof.
  unfold query. rewrite bind_run. simpl. rewrite bind_run.
  match goal with |- context [try_except ?m ?c ?h ?s] =>
    assert (∃ flow st', try_except m c h s = (Ok flow, st')) as (flow & st' & ->)
  end.
  { unfold try_except, is_Exception, log_msg, add_item. run.
    match goal with |- context [query_body ?u ?s] =>
      destruct (query_body u s) as [[flow|e0] st1] end; [eauto|].
    destruct (is_CurrencyError e0); simpl; eauto. }
  destruct flow; simpl; [discriminate|].
  unfold broker_attr, add_item. run.
  destruct (broker st') as [[id b]|]; simpl.
  - destruct (last_update b); simpl; [discriminate|]. intros [= <-]. reflexivity.
  - intros [= <-]. reflexivity.
Qed.

(** C6. A bare numeric literal takes the fast path of
    [_parse_and_merge_input]: for every input whose stripped text
    [float()] reads as [a], and a broker that has its defaults, the
    request returned has the sources [[(default_cur_in, a)]] and as
    destinations exactly the default destination list, in order; the
    plugin's state is left as it was (no call of the parser is
    recorded), and the result is the same whatever [self.parser] is,
    be it [None]. *)
Theorem numeric_literal_fast_path st user_input a id b outs :
  broker st = Some (id, b) → default_curs_out b = Some outs →
  PyStr.truthy (PyStr.strip user_input) = true →
  float_of_str (PyStr.strip user_input) = Some a →
  _parse_and_merge_input (Some user_input) false st
    = (Ok {| sources := Some [ {| src_currency := default_cur_in b; src_amount := a |} ];
             destinations := Some (Build_Destination <$> outs);
             extra := None |}, st)
  ∧ filter is_parse (new_calls st (snd (_parse_and_merge_input (Some user_input) false st))) = []
  ∧ ∀ p, fst (_parse_and_merge_input (Some user_input) false (set_parser p st))
         = fst (_parse_and_merge_input (Some user_input) false st).
Proof.
  intros Hb Ho Ht Hf.
  pose proof (fast_path_run st user_input a false id b outs Hb Ho Ht Hf) as E.
  split; [exact E|]. split.
  - rewrite E. simpl. unfold new_calls. rewrite drop_all. reflexivity.
  - intros p. rewrite E.
    rewrite (fast_path_run (set_parser p st) user_input a false id b outs); auto.
Qed.

(** C10. Every input [float()] accepts takes the numeric fast path
    whatever the [empty] flag: with a broker that has its defaults,
    [_parse_and_merge_input] returns the filled default request with
    that value as the amount under [empty=True] as under
    [empty=False], and [_is_direct_request] holds of what it
    returns. *)
Theorem float_input_ignores_empty_flag st user_input a id b outs :
  broker st = Some (id, b) → default_curs_out b = Some outs →
  PyStr.truthy (PyStr.strip user_input) = true →
  float_of_str (PyStr.strip user_input) = Some a →
  ∀ empty,
    _parse_and_merge_input (Some user_input) empty st
      = (Ok (default_request b a outs), st)
    ∧ _parse_and_merge_input (Some user_input) empty st
      = _parse_and_merge_input (Some user_input) (negb empty) st
    ∧ ∀ q, fst (_parse_and_merge_input (Some user_input) empty st) = Ok q →
           _is_direct_request q = true.
Proof.
  intros Hb Ho Ht Hf empty.
  rewrite !(fast_path_run st user_input a _ id b outs Hb Ho Ht Hf).
  split; [reflexivity|]. split; [reflexivity|].
  intros q [= <-]. reflexivity.
Qed.

(** C7. A successful parse is completed from the broker's defaults:
    for every input that is not blank and not a number, and that the
    parser accepts with the result [parsed], the request returned
    keeps what [parsed] has, has the sources
    [[(default_cur_in, 1.0)]] where [parsed] has none (absent or
    empty), and the default destination list where [parsed] has no
    destinations; this holds for either value of the flag. *)
Theorem parsed_request_backfilled st user_input empty id b outs p parsed :
  broker st = Some (id, b) → default_curs_out b = Some outs →
  PyStr.truthy (PyStr.strip user_input) = true →
  float_of_str (PyStr.strip user_input) = None →
  parser st = Some p → parse p (PyStr.strip user_input) = Ok parsed →
  ∃ q st', _parse_and_merge_input (Some user_input) empty st = (Ok q, st')
    ∧ sources q
      = (if truthy_list (sources parsed) then sources parsed
         else Some [ {| src_currency := default_cur_in b; src_amount := float_one |} ])
    ∧ destinations q
      = (if truthy_list (destinations parsed) then destinations parsed
         else Some (Build_Destination <$> outs))
    ∧ extra q = extra parsed
    ∧ broker st' = broker st.
Proof.
  intros Hb Ho Ht Hf Hp Hparsed. rewrite grammar_path_run by assumption.
  rewrite (bind_Ok _ _ _ _ _ (base_query_run st empty id b outs Hb Ho)).
  unfold parser_parse, apply_defaults, broker_attr, currency_dicts. run.
  rewrite Hp, Hparsed. simpl.
  destruct (truthy_list (destinations parsed)) eqn:Hd;
    destruct (truthy_list (sources parsed)) eqn:Hs;
    exec with Hb Ho Hd Hs; eauto 10.
Qed.

(** C5 (amended). For every input that is not blank and not a number
    and that the parser rejects with [ParseError],
    [_parse_and_merge_input] returns the base query and raises
    nothing: the template (nothing filled in) when [empty] is set,
    and the default request for the amount 1.0 when it is not and the
    broker has its defaults. [query] calls it with [empty] set
    first, gets the template, and returns without adding an item;
    and no run of [query], on any input and state, raises
    [ParseError]. *)
Theorem parse_error_gives_base_query st user_input p e :
  PyStr.truthy (PyStr.strip user_input) = true →
  float_of_str (PyStr.strip user_input) = None →
  parser st = Some p → parse p (PyStr.strip user_input) = Raise e →
  is_ParseError e = true →
  fst (_parse_and_merge_input (Some user_input) true st) = Ok template_request
  ∧ (∀ id b outs, broker st = Some (id, b) → default_curs_out b = Some outs →
       fst (_parse_and_merge_input (Some user_input) false st)
       = Ok (default_request b float_one outs))
  ∧ fst (query user_input st) = Ok tt
  ∧ items (snd (query user_input st)) = items st
  ∧ (∀ st0 s e0, fst (query s st0) = Raise e0 → is_ParseError e0 = false).
Proof.
  intros Ht Hf Hp He Hc.
  assert (∀ st0, parser st0 = Some p →
            ∃ st1, _parse_and_merge_input (Some user_input) true st0
                   = (Ok template_request, st1) ∧ items st1 = items st0) as Htpl.
  { intros st0 Hp0.
    destruct (parse_rejected_run st0 user_input true p e Ht Hf Hp0 He Hc)
      as (q & st1 & Hq & ->).
    destruct (base_query_template st0) as (st1' & Hq' & _ & _ & _ & Hi).
    rewrite Hq in Hq'. injection Hq' as -> ->. eauto. }
  split; [|split; [|split; [|split]]].
  - destruct (Htpl st Hp) as (st1 & -> & _). reflexivity.
  - intros id b outs Hb Ho.
    destruct (parse_rejected_run st user_input false p e Ht Hf Hp He Hc)
      as (q & st1 & Hq & ->).
    rewrite (base_query_run st false id b outs Hb Ho) in Hq.
    injection Hq as <- <-. reflexivity.
  - unfold query, query_body, checked_request, log_msg. rewrite !bind_run.
    unfold try_except. rewrite !bind_run.
    edestruct Htpl as (st1 & -> & Hi); [exact Hp|]. reflexivity.
  - unfold query, query_body, checked_request, log_msg. rewrite !bind_run.
    unfold try_except. rewrite !bind_run.
    edestruct Htpl as (st1 & -> & Hi); [exact Hp|]. simpl. exact Hi.
  - intros st0 s e0 Hr. apply query_raises_only_AttributeError in Hr.
    unfold is_ParseError. rewrite Hr. reflexivity.
Qed.

End RequestClaims.

(* ===================================================================== *)
(** ** Rules for frames *)
(* ===================================================================== *)

Section FrameRules.
Context `{Collab}.
Context (F : Frame) `{!FrameOrder F}.

(** A change that leaves alone all a frame looks at. *)
Lemma within_same st st' :
  broker st' = broker st → calls st' = calls st → items st' = items st →
  next_id st' = next_id st → settings st' = settings st →
  settings_file st' = settings_file st → cache_dir_ok st' = cache_dir_ok st →
  within F st st'.
Proof.
  intros Hb Hc Hi Hn Hs Hf Hd. split; try assumption.
  - intros id b E. exists b. split; [congruence | apply fr_refl].
  - exists []. rewrite app_nil_r. auto.
  - exists []. rewrite app_nil_r. auto.
  - rewrite Hs. apply fr_settings_refl.
Qed.

Lemma within_refl st : within F st st.
Proof. apply within_same; reflexivity. Qed.

Lemma within_trans st1 st2 st3 :
  within F st1 st2 → within F st2 st3 → within F st1 st3.
Proof.
  intros [B1 (c1 & C1 & FC1) (i1 & I1 & FI1) N1 S1 SF1 D1]
         [B2 (c2 & C2 & FC2) (i2 & I2 & FI2) N2 S2 SF2 D2].
  split; try congruence.
  - intros id b Hb. destruct (B1 id b Hb) as (b' & Hb' & R1).
    destruct (B2 id b' Hb') as (b'' & Hb'' & R2).
    exists b''. split; [exact Hb'' | eapply fr_trans; eassumption].
  - exists (c1 ++ c2). rewrite C2, C1, app_assoc. split; [reflexivity|].
    apply Forall_app; auto.
  - exists (i1 ++ i2). rewrite I2, I1, app_assoc. split; [reflexivity|].
    apply Forall_app; auto.
  - eapply fr_settings_trans; eassumption.
Qed.

Lemma within_has_broker st st' :
  within F st st' → is_Some (broker st) → is_Some (broker st').
Proof.
  intros W [[id b] Hb]. destruct (within_broker _ _ _ W id b Hb) as (b' & -> & _). eauto.
Qed.

(** One more call, and nothing else. *)
Lemma within_call st c : fr_call F c → within F st (set_calls (calls st ++ [c]) st).
Proof.
  intros Hc. split; simpl; try reflexivity.
  - intros id b Hb. exists b. split; [exact Hb | apply fr_refl].
  - exists [c]. auto.
  - exists []. rewrite app_nil_r. auto.
  - apply fr_settings_refl.
Qed.

Lemma safe_weaken {A} (m : M A) t : safe F true m → safe F t m.
Proof. intros S st Hb. destruct (S st Hb) as [W T]. split; [exact W|]. intros _. auto. Qed.

Lemma safe_ret {A} (a : A) t : safe F t (mret a).
Proof. intros st Hb. split; [apply within_refl|]. intros _. eexists. reflexivity. Qed.

Lemma safe_raise {A} e : safe F false (raise e : M A).
Proof. intros st Hb. split; [apply within_refl|]. discriminate. Qed.

Lemma safe_bind {A B} (m : M A) (k : A → M B) t :
  safe F t m → (∀ a, safe F t (k a)) → safe F t (m ≫= k).
Proof.
  intros Sm Sk st Hb. destruct (Sm st Hb) as [W1 T1].
  rewrite bind_run. destruct (m st) as [[a|e] st1] eqn:E; simpl in *.
  - destruct (Sk a st1 (within_has_broker _ _ W1 Hb)) as [W2 T2].
    split; [eapply within_trans; eauto|]. exact T2.
  - split; [exact W1|]. intros ->. destruct (T1 eq_refl) as [? [=]].
Qed.

(** [try: m except Exception: h]: whether the statement returns is up
    to the handler. *)
Lemma safe_try {A} (m : M A) (h : exn → M A) t :
  safe F false m → (∀ e, safe F t (h e)) → safe F t (try_except m is_Exception h).
Proof.
  intros Sm Sh st Hb. destruct (Sm st Hb) as [W1 _].
  unfold try_except. destruct (m st) as [[a|e] st1] eqn:E; simpl in *.
  - split; [exact W1|]. eauto.
  - destruct (Sh e st1 (within_has_broker _ _ W1 Hb)) as [W2 T2].
    split; [eapply within_trans; eauto|]. exact T2.
Qed.

(** [try: m except <class>: h], where an exception may pass. *)
Lemma safe_try_class {A} (m : M A) cls (h : exn → M A) :
  safe F false m → (∀ e, safe F false (h e)) → safe F false (try_except m cls h).
Proof.
  intros Sm Sh st Hb. destruct (Sm st Hb) as [W1 _].
  unfold try_except. destruct (m st) as [[a|e] st1] eqn:E; simpl in *.
  - split; [exact W1|]. discriminate.
  - destruct (cls e).
    + destruct (Sh e st1 (within_has_broker _ _ W1 Hb)) as [W2 T2].
      split; [eapply within_trans; eauto|]. discriminate.
    + split; [exact W1| discriminate].
Qed.

Lemma safe_for_each {A} (l : list A) (body : A → M unit) t :
  (∀ x, safe F t (body x)) → safe F t (for_each l body).
Proof.
  intros Sb. induction l as [|x l IH]; simpl.
  - apply (safe_ret tt).
  - apply (safe_bind (body x) (λ _, for_each l body)); auto.
Qed.

Lemma safe_log lvl msg t : safe F t (log_msg lvl msg).
Proof.
  intros st Hb. split; [apply within_same; reflexivity|]. intros _. exists tt. reflexivity.
Qed.

Lemma safe_add_item it t : fr_item F it → safe F t (add_item it).
Proof.
  intros Hi st Hb. split; [|intros _; exists tt; reflexivity].
  split; simpl; try reflexivity.
  - intros id b Hb'. exists b. split; [exact Hb' | apply fr_refl].
  - exists []. rewrite app_nil_r. auto.
  - exists [it]. auto.
  - apply fr_settings_refl.
Qed.

(** [self.broker] is an object wherever a body is run by [safe]. *)
Lemma safe_self_broker {B} (k : option ExchangeRates → M B) t :
  (∀ b, safe F t (k (Some b))) → safe F t (self_broker ≫= k).
Proof.
  intros Sk st Hb. rewrite bind_run. unfold self_broker. simpl.
  destruct Hb as [[id b] Hb]. rewrite Hb. simpl. apply Sk. rewrite Hb. eauto.
Qed.

Lemma safe_broker_attr {A} attr (f : ExchangeRates → A) t : safe F t (broker_attr attr f).
Proof.
  intros st [[id b] Hb]. unfold broker_attr. rewrite Hb. simpl.
  split; [apply within_refl|]. eauto.
Qed.

Lemma safe_broker_getattr {A} (f : ExchangeRates → A) d t : safe F t (broker_getattr f d).
Proof. intros st Hb. split; [apply within_refl|]. simpl. eauto. Qed.

Lemma safe_broker_set attr f t :
  (∀ b, fr_broker F b (f b)) → safe F t (broker_set attr f).
Proof.
  intros Hf st [[id b] Hb]. unfold broker_set. rewrite Hb. simpl.
  split; [|eauto]. split; simpl; try reflexivity.
  - intros id' b' Hb'. rewrite Hb in Hb'. injection Hb' as <- <-. eauto.
  - exists []. rewrite app_nil_r. auto.
  - exists []. rewrite app_nil_r. auto.
  - apply fr_settings_refl.
Qed.

Lemma safe_broker_call {A} attr c (op : ExchangeRates → Result A * ExchangeRates) t :
  fr_call F c → (∀ b, fr_broker F b (snd (op b))) →
  (t = true → ∀ b, ∃ a, fst (op b) = Ok a) →
  safe F t (broker_call attr c op).
Proof.
  intros Hc Hf Ht st [[id b] Hb]. unfold broker_call. rewrite Hb.
  specialize (Hf b). destruct (op b) as [r b1] eqn:E. simpl in *. split.
  - split; simpl; try reflexivity.
    + intros id' b' Hb'. rewrite Hb in Hb'. injection Hb' as <- <-. eauto.
    + exists [c]. auto.
    + exists []. rewrite app_nil_r. auto.
    + apply fr_settings_refl.
  - intros ->. destruct (Ht eq_refl b) as [a Ha]. rewrite E in Ha. eauto.
Qed.

Lemma safe_settings_get key d t : safe F t (settings_get key d).
Proof. intros st Hb. split; [apply within_refl|]. simpl. eauto. Qed.

Lemma safe_settings_reload :
  fr_call F CallSettingsReload → (∀ s s', fr_settings F s s') →
  safe F false settings_reload.
Proof.
  intros Hc Hs st Hb. unfold settings_reload. split; [|discriminate].
  destruct (settings_file st); simpl; [|apply within_call; exact Hc].
  split; simpl; try reflexivity.
  - intros id b E. exists b. split; [exact E | apply fr_refl].
  - exists [CallSettingsReload]. auto.
  - exists []. rewrite app_nil_r. auto.
  - apply Hs.
Qed.

Lemma safe_parser_parse text : fr_call F (CallParse text) → safe F false (parser_parse text).
Proof.
  intros Hc st Hb. unfold parser_parse. split; [|discriminate].
  destruct (parser st); simpl; [apply within_call; exact Hc | apply within_refl].
Qed.

Lemma safe_make_UpdateFreq s : safe F false (make_UpdateFreq s).
Proof.
  unfold make_UpdateFreq.
  destruct (UpdateFreq_of_str s); [apply (safe_ret _) | apply safe_raise].
Qed.

Lemma safe_assign_update_freq f t : safe F t (assign_update_freq f).
Proof. intros st Hb. split; [apply within_same; reflexivity|]. simpl. eauto. Qed.

Lemma safe_self_update_freq_attr : safe F false self_update_freq_attr.
Proof.
  intros st Hb. unfold self_update_freq_attr.
  split; [|discriminate]. destruct (self_update_freq st); apply within_refl.
Qed.

Lemma safe_make_cache_dir : fr_call F CallMkdir → safe F false make_cache_dir.
Proof.
  intros Hc st Hb. unfold make_cache_dir. split; [|discriminate].
  destruct (cache_dir_ok st); simpl; apply within_call; exact Hc.
Qed.

Lemma safe_assign_parser p : fr_call F (CallMakeParser p) → safe F false (assign_parser p).
Proof.
  intros Hc st Hb. unfold assign_parser. split; [|discriminate].
  destruct (make_parser p); simpl; [|apply within_call; exact Hc].
  eapply within_trans; [apply within_call; exact Hc|].
  apply within_same; reflexivity.
Qed.

Lemma safe_clear_parser t : safe F t clear_parser.
Proof. intros st Hb. split; [apply within_same; reflexivity|]. simpl. eauto. Qed.

Lemma safe_call_update_update_item :
  fr_call F CallUpdateUpdateItem → safe F false call_update_update_item.
Proof.
  intros Hc st Hb. unfold call_update_update_item. split; [|discriminate].
  simpl. apply within_call; exact Hc.
Qed.

Lemma safe_currency_dicts x : safe F false (currency_dicts x).
Proof. destruct x; [apply (safe_ret _) | apply safe_raise]. Qed.

End FrameRules.

(** Solves the side goal that a frame is an order. *)
Ltac frame_order := try (match goal with |- FrameOrder _ => exact _ end).

(** One rule, chosen by the shape of the body. *)
Ltac safe_step :=
  lazymatch goal with
  | |- safe _ _ (mbind _ self_broker) => apply safe_self_broker; frame_order; intros ?
  | |- safe _ _ (mbind _ _) => apply safe_bind; frame_order; [|intros ?]
  | |- safe _ _ (try_except _ is_Exception _) => apply safe_try; frame_order; [|intros ?]
  | |- safe _ _ (try_except _ _ _) => apply safe_try_class; frame_order; [|intros ?]
  | |- safe _ _ (for_each _ _) => apply safe_for_each; frame_order; intros ?
  | |- safe _ _ (mret _) => apply safe_ret; frame_order
  | |- safe _ _ (raise _) => apply safe_raise; frame_order
  | |- safe _ _ (log_msg _ _) => apply safe_log; frame_order
  | |- safe _ _ (add_item _) => apply safe_add_item; frame_order
  | |- safe _ _ (broker_attr _ _) => apply safe_broker_attr; frame_order
  | |- safe _ _ (broker_getattr _ _) => apply safe_broker_getattr; frame_order
  | |- safe _ _ (broker_set _ _) => apply safe_broker_set; frame_order
  | |- safe _ _ (broker_call _ _ _) => apply safe_broker_call; frame_order
  | |- safe _ _ (settings_get _ _) => apply safe_settings_get; frame_order
  | |- safe _ _ settings_reload => apply safe_settings_reload; frame_order
  | |- safe _ _ (parser_parse _) => apply safe_parser_parse; frame_order
  | |- safe _ _ (make_UpdateFreq _) => apply safe_make_UpdateFreq; frame_order
  | |- safe _ _ (assign_update_freq _) => apply safe_assign_update_freq; frame_order
  | |- safe _ _ self_update_freq_attr => apply safe_self_update_freq_attr; frame_order
  | |- safe _ _ make_cache_dir => apply safe_make_cache_dir; frame_order
  | |- safe _ _ (assign_parser _) => apply safe_assign_parser; frame_order
  | |- safe _ _ clear_parser => apply safe_clear_parser; frame_order
  | |- safe _ _ call_update_update_item => apply safe_call_update_update_item; frame_order
  | |- safe _ _ (currency_dicts _) => apply safe_currency_dicts; frame_order
  | |- safe _ _ (if ?c then _ else _) => destruct c
  | |- safe _ _ (match ?x with _ => _ end) => destruct x
  | |- safe _ _ (let _ := _ in _) => cbv zeta
  end.

Ltac safe_steps := repeat (repeat safe_step; try progress (cbv beta iota zeta)).

(** The broker's methods, as the bodies call them. *)
Ltac unfold_calls :=
  unfold call_clear_aliases, call_force_update, call_set_default_cur_in,
    call_set_default_curs_out, call_validate_code, call_validate_alias.

(** The stages of [_read_config]. *)
Ltac unfold_read_config :=
  unfold _read_config, configure_broker, configure_parser, read_currencies,
    read_update_freq, read_app_id, init_or_update_broker, update_broker,
    read_input_cur, read_output_cur, read_keywords, read_aliases, read_alias_line,
    read_alias, init_parser, full_properties, with_currencies, log_configuration.

Section ObjectIdentity.
Context `{Collab}.

#[export] Instance same_object_order : FrameOrder same_object.
Proof. split; simpl; auto. Qed.

#[export] Instance before_conversion_order : FrameOrder before_conversion.
Proof. split; simpl; auto; congruence. Qed.

(** [_read_config], stage by stage. *)
Lemma read_config_run st :
  _read_config st
  = (read_update_freq;;
     app_id_key ← read_app_id;
     r ← init_or_update_broker app_id_key;
     match r with
     | None => mret tt
     | Some is_first_init => configure_rest is_first_init
     end) st.
Proof.
  unfold _read_config, configure_broker, configure_rest. rewrite !bind_run.
  destruct (read_update_freq st) as [[[]|e] st1]; [|reflexivity].
  rewrite !bind_run.
  destruct (read_app_id st1) as [[key|e] st2]; [|reflexivity].
  rewrite !bind_run.
  destruct (init_or_update_broker key st2) as [[[i|]|e] st3]; try reflexivity.
  rewrite !bind_run.
  destruct (read_currencies i st3) as [[[s d]|e] st4]; reflexivity.
Qed.

(** The first stage sets [self.update_freq], if anything. *)
Lemma read_update_freq_run st :
  ∃ r o, read_update_freq st = (r, set_self_update_freq o st).
Proof.
  unfold read_update_freq, make_UpdateFreq, assign_update_freq, settings_get. run.
  simpl. destruct (UpdateFreq_of_str (update_freq_str _)); simpl; [eauto|].
  destruct (UpdateFreq_of_str "daily"); simpl; [eauto|].
  exists (Raise (Exn ValueError ("'" +:+ "daily" +:+ "' is not a valid UpdateFreq"))),
    (self_update_freq st).
  destruct st; reflexivity.
Qed.

Lemma read_app_id_run st :
  read_app_id st = (Ok (app_id_key_of (default (PyStr "") (settings st !! "app_id"))), st).
Proof. reflexivity. Qed.

(** With a broker in place, [_read_config] keeps it: the same object,
    and no constructor call (the branch of line 228). *)
Lemma read_config_same_object : safe same_object false _read_config.
Proof.
  unfold_read_config. unfold_calls. safe_steps.
  all: simpl; auto; discriminate.
Qed.

Lemma configure_rest_same_object i : safe same_object false (configure_rest i).
Proof.
  unfold configure_rest. unfold_read_config. unfold_calls. safe_steps.
  all: simpl; auto; discriminate.
Qed.

Lemma reload_body_same_object : safe same_object false reload_body.
Proof.
  unfold reload_body. unfold_calls. safe_steps.
  all: try (simpl; auto; discriminate).
  apply read_config_same_object.
Qed.

(** What a run within a frame added to the calls is allowed by the frame. *)
Lemma new_calls_within F st st' :
  within F st st' → Forall (fr_call F) (new_calls st st').
Proof.
  intros W. destruct (within_calls _ _ _ W) as (l & E & Hl).
  unfold new_calls. rewrite E, drop_app_length. exact Hl.
Qed.

Lemma new_items_within F st st' :
  within F st st' → Forall (fr_item F) (new_items st st').
Proof.
  intros W. destruct (within_items _ _ _ W) as (l & E & Hl).
  unfold new_items. rewrite E, drop_app_length. exact Hl.
Qed.

Lemma no_construction st st' :
  within same_object st st' → filter is_construction (new_calls st st') = [].
Proof.
  intros W. apply new_calls_within in W. simpl in W.
  induction W as [|c l Hc _ IH]; [reflexivity|].
  rewrite filter_cons. destruct (decide (is_construction c)) as [D|D]; [|exact IH].
  rewrite Hc in D. destruct D.
Qed.

(** Lines 214-261 on a plugin without a broker: either the method
    returns at line 261 and there is still no broker, or a broker was
    constructed, once, and [is_first_init] is true. *)
Lemma init_broker_run key st :
  broker st = None →
  ∃ r st', init_or_update_broker key st = (Ok r, st')
    ∧ settings st' = settings st
    ∧ ((r = None ∧ broker st' = None ∧ next_id st' = next_id st)
       ∨ (r = Some true ∧ next_id st' = S (next_id st)
          ∧ ∃ b, broker st' = Some (next_id st, b))).
Proof.
  intros Hb. unfold init_or_update_broker, make_cache_dir, self_broker, construct_broker,
    self_update_freq_attr, new_ExchangeRates, log_msg. run.
  destruct (cache_dir_ok st); exec with Hb; [|eauto 10].
  destruct (self_update_freq st) as [f|]; exec with Hb; [|eauto 10].
  destruct (ExchangeRates_new f key); exec with Hb; eauto 10.
Qed.

(** On a plugin without a broker [_read_config] constructs at most one. *)
Lemma read_config_first_init st :
  broker st = None →
  (broker (snd (_read_config st)) = None
   ∧ next_id (snd (_read_config st)) = next_id st)
  ∨ (next_id (snd (_read_config st)) = S (next_id st)
     ∧ ∃ b, broker (snd (_read_config st)) = Some (next_id st, b)).
Proof.
  intros Hb. rewrite read_config_run, bind_run.
  destruct (read_update_freq_run st) as (r & o & ->).
  destruct r as [[]|e]; [|left; auto].
  rewrite bind_run, read_app_id_run, bind_run.
  match goal with |- context [init_or_update_broker ?k ?s] =>
    destruct (init_broker_run k s Hb) as (r & st3 & -> & _ & Hr) end.
  destruct Hr as [(-> & Hb3 & Hn3) | (-> & Hn3 & b & Hb3)]; simpl in *.
  - left. auto.
  - right. destruct (configure_rest_same_object true st3) as [W _]; [rewrite Hb3; eauto|].
    destruct (within_broker _ _ _ W _ _ Hb3) as (b' & Hb' & _).
    rewrite (within_next_id _ _ _ W). eauto.
Qed.

(** C2 (amended). [_read_config] constructs a broker only when the
    plugin has none, and then at most one; with a broker in place,
    every call of [_read_config] keeps that same object (mutated in
    place, no constructor call), and so does every call of
    [reload_settings] whose [try] body raises nothing. When that body
    raises, the recovery path (lines 104-108) deletes the broker, and
    the [_read_config] it runs constructs a new one or leaves none. *)
Theorem broker_kept_except_recovery st :
  (∀ id b, broker st = Some (id, b) →
     (∃ b', broker (snd (_read_config st)) = Some (id, b'))
     ∧ next_id (snd (_read_config st)) = next_id st
     ∧ filter is_construction (new_calls st (snd (_read_config st))) = [])
  ∧ (broker st = None →
       (broker (snd (_read_config st)) = None
        ∧ next_id (snd (_read_config st)) = next_id st)
       ∨ (next_id (snd (_read_config st)) = S (next_id st)
          ∧ ∃ b, broker (snd (_read_config st)) = Some (next_id st, b)))
  ∧ (∀ id b st1, broker st = Some (id, b) → reload_body st = (Ok tt, st1) →
       reload_settings st = (Ok tt, st1)
       ∧ (∃ b', broker st1 = Some (id, b'))
       ∧ next_id st1 = next_id st
       ∧ filter is_construction (new_calls st st1) = [])
  ∧ (∀ id b e st1, broker st = Some (id, b) → reload_body st = (Raise e, st1) →
       (broker (snd (reload_settings st)) = None
        ∧ next_id (snd (reload_settings st)) = next_id st)
       ∨ (next_id (snd (reload_settings st)) = S (next_id st)
          ∧ ∃ b', broker (snd (reload_settings st)) = Some (next_id st, b'))).
Proof.
  split; [|split; [|split]].
  - intros id b Hb.
    destruct (read_config_same_object st) as [W _]; [rewrite Hb; eauto|].
    destruct (within_broker _ _ _ W _ _ Hb) as (b' & Hb' & _).
    split; [eauto|]. split; [exact (within_next_id _ _ _ W) | exact (no_construction _ _ W)].
  - apply read_config_first_init.
  - intros id b st1 Hb Hr.
    destruct (reload_body_same_object st) as [W _]; [rewrite Hb; eauto|].
    rewrite Hr in W. simpl in W.
    destruct (within_broker _ _ _ W _ _ Hb) as (b' & Hb' & _).
    split; [apply try_except_Ok; exact Hr|].
    split; [eauto|]. split; [exact (within_next_id _ _ _ W) | exact (no_construction _ _ W)].
  - intros id b e st1 Hb Hr.
    destruct (reload_body_same_object st) as [W _]; [rewrite Hb; eauto|].
    rewrite Hr in W. simpl in W.
    destruct (within_broker _ _ _ W _ _ Hb) as (b' & Hb' & _).
    pose proof (within_next_id _ _ _ W) as Hn.
    unfold reload_settings. rewrite (try_except_caught _ _ _ _ _ _ Hr eq_refl).
    unfold log_msg, delattr_broker. rewrite bind_run. simpl.
    unfold try_except. rewrite bind_run. simpl. rewrite Hb'. simpl.
    match goal with |- context [_read_config ?s] =>
      destruct (read_config_first_init s eq_refl) as [[B N] | [N [b2 B]]];
      destruct (_read_config s) as [[[]|e2] st3]; simpl in *
    end; rewrite ?Hn in *; eauto.
Qed.

End ObjectIdentity.

(* ===================================================================== *)
(** ** [query] and [reload_settings]: what reaches the caller *)
(* ===================================================================== *)

Section Queries.
Context `{Collab}.

(** [reload_settings] returns whatever happens inside: both of its
    handlers catch every exception, and only log. *)
Lemma reload_settings_returns st : ∃ st', reload_settings st = (Ok tt, st').
Proof.
  unfold reload_settings, try_except, log_msg.
  destruct (reload_body st) as [[[]|e] st1]; [eauto|]. simpl.
  rewrite bind_run. simpl.
  match goal with |- context [mbind ?k ?m ?s] => destruct (mbind k m s) as [[[]|e2] st2] end;
    simpl; eauto.
Qed.

(** Without a broker a number gets [query] to raise: the fast path of
    [_parse_and_merge_input] reads [self.broker.default_cur_in], the
    handler of line 56 adds the error item and goes on to line 61,
    which reads [self.broker.last_update] outside the [try]. *)
Lemma query_without_broker st user_input a :
  broker st = None →
  PyStr.truthy (PyStr.strip user_input) = true →
  float_of_str (PyStr.strip user_input) = Some a →
  fst (query user_input st) = Raise (no_attribute "NoneType" "last_update")
  ∧ new_items st (snd (query user_input st))
    = [error_item (no_attribute "NoneType" "default_cur_in")].
Proof.
  intros Hb Ht Hf.
  unfold query, query_body, checked_request, _parse_and_merge_input, base_query,
    broker_attr, log_msg, add_item. run.
  rewrite (truthy_strip _ Ht), Ht. exec with Hb Hf.
  split; [reflexivity|]. unfold new_items. simpl. rewrite drop_app_length. reflexivity.
Qed.




End Queries.

(* ===================================================================== *)
(** ** The parser: the fallback chain of [_read_config] *)
(* ===================================================================== *)

Section ParserConstruction.
Context `{Collab}.

Lemma full_properties_run st separators dest_separators :
  full_properties separators dest_separators st
  = (Ok (full_properties_of st separators dest_separators), st).
Proof. reflexivity. Qed.

Lemma with_currencies_run st st1 :
  broker st1 = broker st →
  with_currencies ParserProperties_new st1 = (Ok (minimal_properties_of st), st1).
Proof.
  intros E. unfold with_currencies, broker_getattr, minimal_properties_of. run.
  simpl. rewrite E. reflexivity.
Qed.

(** One attempt: [self.parser = make_parser(p)], a log record, and
    [parser_initialized = True]. *)
Lemma attempt_run p lvl msg st :
  (assign_parser p;; log_msg lvl msg;; mret true) st
  = match make_parser p with
    | Ok ps => (Ok true,
                set_log (log st ++ [(lvl, msg)])
                  (set_parser (Some ps) (set_calls (calls st ++ [CallMakeParser p]) st)))
    | Raise e => (Raise e, set_calls (calls st ++ [CallMakeParser p]) st)
    end.
Proof.
  unfold assign_parser, log_msg. run. destruct (make_parser p); reflexivity.
Qed.

Lemma init_parser_chain st separators dest_separators full minimal :
  full_properties separators dest_separators st = (Ok full, st) →
  (∀ st1, broker st1 = broker st →
          with_currencies ParserProperties_new st1 = (Ok minimal, st1)) →
  let st' := snd (init_parser separators dest_separators st) in
  fst (init_parser separators dest_separators st) = Ok tt
  ∧ match make_parser full with
    | Ok p => parser st' = Some p
              ∧ new_calls st st' = [CallMakeParser full]
              ∧ critical (new_log st st') = []
    | Raise _ =>
        match make_parser minimal with
        | Ok p => parser st' = Some p
                  ∧ new_calls st st' = [CallMakeParser full; CallMakeParser minimal]
                  ∧ critical (new_log st st') = []
        | Raise _ =>
            match make_parser ParserProperties_new with
            | Ok p => parser st' = Some p
                      ∧ new_calls st st'
                        = [CallMakeParser full; CallMakeParser minimal;
                           CallMakeParser ParserProperties_new]
                      ∧ critical (new_log st st') = []
            | Raise _ => parser st' = None
                         ∧ new_calls st st'
                           = [CallMakeParser full; CallMakeParser minimal;
                              CallMakeParser ParserProperties_new]
                         ∧ critical (new_log st st')
                           = ["All parser initialization attempts failed";
                              "Parser initialization completely failed - plugin may not function correctly"]
            end
        end
    end.
Proof.
  intros Hfull Hmin st'. subst st'.
  remember (init_parser separators dest_separators st) as res eqn:E.
  unfold init_parser in E. rewrite bind_run in E. unfold try_except at 1 in E.
  rewrite (bind_Ok _ _ _ _ _ Hfull), attempt_run in E.
  unfold new_calls, new_log, critical.
  destruct (make_parser full) as [p1|e1]; simpl in E.
  { subst res. simpl. rewrite !drop_app_length. auto. }
  rewrite bind_run in E. unfold log_msg at 1 in E. cbv beta iota in E.
  unfold try_except at 1 in E.
  erewrite bind_Ok in E by (apply Hmin; reflexivity). rewrite attempt_run in E.
  destruct (make_parser minimal) as [p2|e2]; simpl in E.
  { subst res. simpl. rewrite <- !app_assoc, !drop_app_length. auto. }
  rewrite bind_run in E. unfold log_msg at 1 in E. cbv beta iota in E.
  unfold try_except at 1 in E. rewrite attempt_run in E.
  destruct (make_parser ParserProperties_new) as [p3|e3]; simpl in E.
  { subst res. simpl. rewrite <- !app_assoc, !drop_app_length. auto. }
  subst res. simpl. rewrite <- !app_assoc, !drop_app_length. auto.
Qed.

(** Lines 393-434 return whatever happens inside. *)
Lemma read_aliases_returns st : ∃ st', read_aliases st = (Ok tt, st').
Proof.
  unfold read_aliases, try_except, log_msg.
  match goal with |- context [match ?x with (_, _) => _ end] =>
    destruct x as [[[]|e] st1] end; simpl; eauto.
Qed.

(** Lines 484-493 write three INFO records and touch nothing else. *)
Lemma log_configuration_run st :
  ∃ st' l, log_configuration st = (Ok tt, st')
    ∧ parser st' = parser st ∧ calls st' = calls st ∧ broker st' = broker st
    ∧ log st' = log st ++ l ∧ critical l = [].
Proof.
  unfold log_configuration, broker_getattr, log_msg. run. simpl.
  eexists _, [_; _; _]. rewrite <- !app_assoc. simpl. eauto 10.
Qed.

(** C9. Parser construction in [_read_config] is a chain of three
    attempts: the full properties (currencies, keywords, aliases),
    then the currencies only, then [ParserProperties()] as it is. The
    first attempt [make_parser] accepts sets [self.parser], and no
    later attempt is made; when all three fail, [self.parser] is
    [None] and two CRITICAL records are logged. In every case
    [_read_config] returns, once it got as far as the parser (that is,
    [configure_broker] returned the keyword lists). *)
Theorem parser_fallback_chain st separators dest_separators st1 :
  configure_broker st = (Ok (Some (separators, dest_separators)), st1) →
  ∃ st2, read_aliases st1 = (Ok tt, st2)
    ∧ let st3 := snd (init_parser separators dest_separators st2) in
      let full := full_properties_of st2 separators dest_separators in
      let minimal := minimal_properties_of st2 in
      fst (_read_config st) = Ok tt
      ∧ parser (snd (_read_config st)) = parser st3
      ∧ calls (snd (_read_config st)) = calls st3
      ∧ critical (new_log st3 (snd (_read_config st))) = []
      ∧ match make_parser full with
        | Ok p => parser st3 = Some p
                  ∧ new_calls st2 st3 = [CallMakeParser full]
                  ∧ critical (new_log st2 st3) = []
        | Raise _ =>
            match make_parser minimal with
            | Ok p => parser st3 = Some p
                      ∧ new_calls st2 st3 = [CallMakeParser full; CallMakeParser minimal]
                      ∧ critical (new_log st2 st3) = []
            | Raise _ =>
                match make_parser ParserProperties_new with
                | Ok p => parser st3 = Some p
                          ∧ new_calls st2 st3
                            = [CallMakeParser full; CallMakeParser minimal;
                               CallMakeParser ParserProperties_new]
                          ∧ critical (new_log st2 st3) = []
                | Raise _ => parser st3 = None
                             ∧ new_calls st2 st3
                               = [CallMakeParser full; CallMakeParser minimal;
                                  CallMakeParser ParserProperties_new]
                             ∧ critical (new_log st2 st3)
                               = ["All parser initialization attempts failed";
                                  "Parser initialization completely failed - plugin may not function correctly"]
                end
            end
        end.
Proof.
  intros Hc. destruct (read_aliases_returns st1) as (st2 & Ha). exists st2.
  split; [exact Ha|]. intros st3 full minimal.
  destruct (init_parser_chain st2 separators dest_separators full minimal
              (full_properties_run _ _ _) (with_currencies_run st2)) as [Hok Hchain].
  fold st3 in Hchain.
  destruct (log_configuration_run st3) as (st4 & l & Hl & Hp & Hcs & _ & Hlog & Hcrit).
  assert (_read_config st = (Ok tt, st4)) as ->.
  { unfold _read_config. rewrite (bind_Ok _ _ _ _ _ Hc). unfold configure_parser.
    rewrite (bind_Ok _ _ _ _ _ Ha), bind_run.
    destruct (init_parser separators dest_separators st2) as [[[]|e] st3'] eqn:E;
      [|discriminate]. exact Hl. }
  simpl. split; [reflexivity|]. split; [exact Hp|]. split; [exact Hcs|].
  split; [|exact Hchain]. unfold new_log. rewrite Hlog, drop_app_length. exact Hcrit.
Qed.
End ParserConstruction.

(* ===================================================================== *)
(** ** The aliases: emptied and rebuilt by [_read_config] *)
(* ===================================================================== *)

Section Aliases.
Context `{Collab}.

#[export] Instance settings_kept_order : FrameOrder settings_kept.
Proof. split; simpl; auto; congruence. Qed.

Lemma init_or_update_broker_settings_kept key :
  safe settings_kept false (init_or_update_broker key).
Proof.
  unfold init_or_update_broker, update_broker. unfold_calls. safe_steps.
  all: simpl; auto; discriminate.
Qed.






Context `{!BrokerContract}.







End Aliases.

(* ===================================================================== *)
(** ** The reload: a refresh exactly when the configuration changed *)
(* ===================================================================== *)


Section Reload.
Context `{Collab} `{!BrokerContract}.

#[export] Instance no_refresh_order : FrameOrder no_refresh.
Proof.
  split; simpl; [auto | intros ??? [] []; split; congruence | auto | intros; congruence].
Qed.

#[export] Instance quiet_order : FrameOrder quiet.
Proof.
  split; unfold quiet, same_config; simpl.
  - intros b. repeat split.
  - intros ??? [(? & ? & ? & ?) ?] [(? & ? & ? & ?) ?]. repeat split; congruence.
  - reflexivity.
  - intros; congruence.
Qed.











End Reload.

(* ===================================================================== *)
(** ** Further properties of the requests *)
(* ===================================================================== *)

(** [strip()] strips all there is to strip. *)
Lemma lstrip_idemp s : PyStr.lstrip (PyStr.lstrip s) = PyStr.lstrip s.
Proof.
  induction s as [|c r IH]; [reflexivity|]. simpl.
  destruct (PyStr.isspace c) eqn:E; [exact IH|]. simpl. rewrite E. reflexivity.
Qed.

Lemma rstrip_idemp s : PyStr.rstrip (PyStr.rstrip s) = PyStr.rstrip s.
Proof.
  induction s as [|c r IH]; [reflexivity|]. simpl.
  destruct (PyStr.isspace c && negb (PyStr.truthy (PyStr.rstrip r))) eqn:E; [reflexivity|].
  simpl. rewrite IH, E. reflexivity.
Qed.

Lemma rstrip_lstrip t : PyStr.rstrip t = t → PyStr.rstrip (PyStr.lstrip t) = PyStr.lstrip t.
Proof.
  induction t as [|c r IH]; [reflexivity|]. intros E. simpl.
  destruct (PyStr.isspace c) eqn:Ec; [|exact E].
  apply IH. simpl in E. rewrite Ec in E. simpl in E.
  destruct (PyStr.truthy (PyStr.rstrip r)); simpl in E; [|discriminate].
  injection E as E. exact E.
Qed.

Lemma strip_idemp s : PyStr.strip (PyStr.strip s) = PyStr.strip s.
Proof.
  unfold PyStr.strip.
  rewrite (rstrip_lstrip (PyStr.rstrip s) (rstrip_idemp s)). apply lstrip_idemp.
Qed.

Section RequestEdges.
Context `{Collab}.

Lemma blank_input_run s empty st :
  PyStr.truthy (PyStr.strip s) = false →
  _parse_and_merge_input (Some s) empty st = base_query empty st.
Proof.
  intros Hblank. unfold _parse_and_merge_input. rewrite bind_run.
  destruct (base_query empty st) as [[q|e] st1]; [|reflexivity].
  rewrite Hblank, orb_true_r. reflexivity.
Qed.

(** X6. With no input, or an input that is empty or blank,
    [_parse_and_merge_input] returns the base query and raises nothing,
    whatever the plugin is: no call is made and no item added. Under
    [empty=True] it is the template; otherwise the request for 1.0 of
    the broker's default source currency into its default
    destinations, and, where there is no broker or the broker has no
    destination list, the hard-coded request USD 1.0 to EUR of lines
    139-145. *)
Theorem blank_input_gives_base_query user_input empty st :
  (∀ s, user_input = Some s → PyStr.truthy (PyStr.strip s) = false) →
  ∃ q st',
    _parse_and_merge_input user_input empty st = (Ok q, st')
    ∧ broker st' = broker st ∧ calls st' = calls st ∧ items st' = items st
    ∧ (empty = true → q = template_request)
    ∧ (empty = false →
       ∀ id b outs, broker st = Some (id, b) → default_curs_out b = Some outs →
         q = default_request b float_one outs)
    ∧ (empty = false →
       (broker st = None ∨ ∃ id b, broker st = Some (id, b) ∧ default_curs_out b = None) →
       q = fallback_request).
Proof.
  intros Hblank.
  assert (_parse_and_merge_input user_input empty st = base_query empty st) as ->.
  { unfold _parse_and_merge_input. rewrite bind_run.
    destruct (base_query empty st) as [[q|e] st1]; [|reflexivity].
    destruct user_input as [s|]; [|reflexivity].
    rewrite (Hblank s eq_refl), orb_true_r. reflexivity. }
  unfold base_query, broker_attr, currency_dicts, log_msg. run.
  destruct (broker st) as [[id b]|] eqn:Hb; exec with Hb.
  - destruct empty; exec with Hb.
    + eexists _, _. split; [reflexivity|]. repeat split; auto; discriminate.
    + destruct (default_curs_out b) as [outs|] eqn:Ho; exec with Hb.
      * eexists _, _. split; [reflexivity|]. do 4 (split; [auto; discriminate|]).
        split.
        -- intros _ id' b' outs' [= <- <-] Ho'. rewrite Ho in Ho'.
           injection Ho' as <-. reflexivity.
        -- intros _ [[=] | (id' & b' & [= <- <-] & Ho')]. congruence.
      * eexists _, _. split; [reflexivity|]. simpl. do 4 (split; [auto; discriminate|]).
        split; [|reflexivity]. intros _ id' b' outs' [= <- <-] Ho'. congruence.
  - destruct empty; exec with Hb.
    + eexists _, _. split; [reflexivity|]. repeat split; auto; discriminate.
    + eexists _, _. split; [reflexivity|]. simpl. do 4 (split; [auto; discriminate|]).
      split; [discriminate | reflexivity].
Qed.

(** X7. [_parse_and_merge_input] sees its input only through
    [strip()] (lines 147-150): white space around the input changes
    neither the result nor what is done to the plugin. *)
Theorem input_is_stripped s empty st :
  _parse_and_merge_input (Some s) empty st
  = _parse_and_merge_input (Some (PyStr.strip s)) empty st.
Proof.
  unfold _parse_and_merge_input. rewrite !bind_run.
  destruct (base_query empty st) as [[q|e] st1]; [|reflexivity].
  rewrite strip_idemp.
  destruct (PyStr.truthy (PyStr.strip s)) eqn:Ht.
  - rewrite (truthy_strip _ Ht). reflexivity.
  - simpl. rewrite !orb_true_r. reflexivity.
Qed.

(** X8. Whatever [_parse_and_merge_input] returns under
    [empty=False] has at least one source and a destination list: the
    test of lines 30-31 of [query] never finds [None], in any state
    and for any input. *)
Theorem merged_request_complete user_input st q st' :
  _parse_and_merge_input user_input false st = (Ok q, st') →
  (∃ s l, sources q = Some (s :: l)) ∧ is_Some (destinations q).
Proof.
  unfold _parse_and_merge_input. rewrite bind_run.
  assert (∀ q0 st0, base_query false st = (Ok q0, st0) →
            (∃ s l, sources q0 = Some (s :: l)) ∧ is_Some (destinations q0)) as Hbase.
  { unfold base_query, broker_attr, currency_dicts, log_msg. run.
    destruct (broker st) as [[id b]|] eqn:Hb; exec with Hb.
    - destruct (default_curs_out b); exec with Hb; intros q0 st0 [= <- <-]; simpl; eauto.
    - intros q0 st0 [= <- <-]; simpl; eauto. }
  destruct (base_query false st) as [[base|e] st1]; [|discriminate].
  specialize (Hbase base st1 eq_refl).
  destruct user_input as [s|]; [|intros [= <- <-]; exact Hbase].
  destruct (negb (PyStr.truthy s) || negb (PyStr.truthy (PyStr.strip s)));
    [intros [= <- <-]; exact Hbase|].
  cbv zeta. destruct (float_of_str (PyStr.strip s)) as [a|].
  - unfold broker_attr, currency_dicts. run.
    destruct (broker st1) as [[id b]|] eqn:Hb; exec with Hb; [|discriminate].
    destruct (default_curs_out b); exec with Hb; [|discriminate].
    intros [= <- <-]. simpl. eauto.
  - unfold try_except, parser_parse, apply_defaults, broker_attr, currency_dicts. run.
    destruct (parser st1) as [p|]; simpl; [|discriminate].
    destruct (parse p (PyStr.strip s)) as [parsed|e]; simpl.
    2:{ destruct (is_ParseError e); [|discriminate]. intros [= <- <-]. exact Hbase. }
    destruct (destinations parsed) as [[|d ds]|] eqn:Hd;
      destruct (sources parsed) as [[|s0 ss]|] eqn:Hs; simpl;
      rewrite ?Hd, ?Hs; simpl;
      (destruct (broker st1) as [[id b]|] eqn:Hb; exec with Hb Hd Hs;
       [destruct (default_curs_out b); exec with Hb Hd Hs|]);
      try (intros [= <- <-]; simpl; rewrite ?Hd, ?Hs; eauto);
      try (intros E; destruct (is_ParseError _) in E; [injection E as <- <-; exact Hbase | discriminate E]).
Qed.

End RequestEdges.

(* ===================================================================== *)
(** ** Further properties of [query] *)
(* ===================================================================== *)

Section QueryOutcomes.
Context `{Collab}.

#[export] Instance conversion_only_order : FrameOrder conversion_only.
Proof. split; simpl; auto; congruence. Qed.

#[export] Instance parsing_only_order : FrameOrder parsing_only.
Proof. split; simpl; auto; congruence. Qed.



Lemma query_conversion_only user_input : safe conversion_only false (query user_input).
Proof.
  unfold query, query_body, checked_request, refresh_and_convert,
    _parse_and_merge_input, base_query, apply_defaults.
  safe_steps. all: simpl; auto; discriminate.
Qed.

(** X1. [query] on an empty or blank input returns at line 26
    whatever the plugin is, broker or no broker: no item is added, no
    call is made, and the broker and the parser are as they were. *)
Theorem blank_query_is_silent user_input st :
  PyStr.truthy (PyStr.strip user_input) = false →
  ∃ st', query user_input st = (Ok tt, st')
    ∧ items st' = items st ∧ calls st' = calls st ∧ broker st' = broker st
    ∧ parser st' = parser st.
Proof.
  intros Hblank. unfold query, query_body, checked_request.
  rewrite bind_run. unfold log_msg at 1. cbv beta iota.
  set (st0 := set_log _ st).
  destruct (base_query_template st0) as (st1 & E & Hb & Hp & Hc & Hi).
  rewrite bind_run. unfold try_except at 1. rewrite !bind_run.
  rewrite (blank_input_run _ _ _ Hblank), E. simpl.
  exists st1. split; [reflexivity|]. rewrite Hi, Hc, Hb, Hp. auto.
Qed.



(** [query], once its try statement is through. *)
Lemma query_after_try user_input st flow st2 :
  try_except (query_body user_input) is_Exception
    (λ e, if is_CurrencyError e
          then log_msg ERROR ("Currency error: " +:+ exn_msg e);; mret Returned
          else log_msg ERROR "Unexpected error";; add_item (error_item e);;
               mret FellThrough)
    (snd (log_msg DEBUG ("Processing query: '" +:+ user_input +:+ "'") st))
  = (Ok flow, st2) →
  query user_input st
  = match flow with
    | Returned => (Ok tt, st2)
    | FellThrough =>
        match broker st2 with
        | Some (_, b) =>
            match last_update b with
            | Some t => (Ok tt, set_items (items st2 ++ [update_item user_input t]) st2)
            | None => (Raise (no_attribute "NoneType" "isoformat"), st2)
            end
        | None => (Raise (no_attribute "NoneType" "last_update"), st2)
        end
    end.
Proof.
  intros E. unfold query. rewrite bind_run. unfold log_msg at 1. cbv beta iota.
  simpl in E. rewrite bind_run, E. destruct flow; [reflexivity|].
  unfold broker_attr, add_item. run.
  destruct (broker st2) as [[id b]|]; [|reflexivity].
  destruct (last_update b); reflexivity.
Qed.




(** X4. With a broker in place, [query] raises in one case only:
    line 63 is reached and the broker has no [last_update]; the
    exception is the [AttributeError] of [None.isoformat()], and the
    broker is still the same object. *)
Theorem query_raises_only_without_last_update st user_input id b e :
  broker st = Some (id, b) →
  fst (query user_input st) = Raise e →
  e = no_attribute "NoneType" "isoformat"
  ∧ ∃ b', broker (snd (query user_input st)) = Some (id, b') ∧ last_update b' = None.
Proof.
  intros Hb.
  destruct (query_conversion_only user_input st) as [W _]; [rewrite Hb; eauto|].
  destruct (within_broker _ _ _ W id b Hb) as (b' & Hb' & _). revert Hb'.
  match goal with |- context [query user_input st] =>
    assert (∃ flow st2,
      try_except (query_body user_input) is_Exception
        (λ e, if is_CurrencyError e
              then log_msg ERROR ("Currency error: " +:+ exn_msg e);; mret Returned
              else log_msg ERROR "Unexpected error";; add_item (error_item e);;
                   mret FellThrough)
        (snd (log_msg DEBUG ("Processing query: '" +:+ user_input +:+ "'") st))
      = (Ok flow, st2)) as (flow & st2 & E)
  end.
  { unfold try_except, log_msg, add_item. run.
    match goal with |- context [query_body ?u ?s] =>
      destruct (query_body u s) as [[flow|e0] st1] end; [eauto|].
    unfold is_Exception. destruct (is_CurrencyError e0); simpl; eauto. }
  rewrite (query_after_try _ _ _ _ E).
  destruct flow; [discriminate|].
  destruct (broker st2) as [[id2 b2]|] eqn:Hb2; [|simpl; rewrite Hb2; discriminate].
  destruct (last_update b2) eqn:Ht; [discriminate|].
  simpl. rewrite Hb2. intros [= <- <-] [= <-]. eauto.
Qed.

(** X5. [query] leaves the configuration alone: with a broker in
    place it ends with the same broker object and the same settings,
    constructs nothing, and calls nothing but [tryUpdate], [convert],
    the parser and the update hook, for every input. *)
Theorem query_calls_only_conversion st user_input id b :
  broker st = Some (id, b) →
  (∃ b', broker (snd (query user_input st)) = Some (id, b'))
  ∧ settings (snd (query user_input st)) = settings st
  ∧ next_id (snd (query user_input st)) = next_id st
  ∧ Forall (λ c, is_query_call c = true) (new_calls st (snd (query user_input st))).
Proof.
  intros Hb.
  destruct (query_conversion_only user_input st) as [W _]; [rewrite Hb; eauto|].
  destruct (within_broker _ _ _ W id b Hb) as (b' & Hb' & _).
  split; [eauto|]. split; [symmetry; exact (within_settings _ _ _ W)|].
  split; [exact (within_next_id _ _ _ W)|]. exact (new_calls_within _ _ _ W).
Qed.

End QueryOutcomes.

(* ===================================================================== *)
(** ** Further properties of [_read_config] *)
(* ===================================================================== *)

Section ConfigurationStages.
Context `{Collab}.

(** Lines 196-203 where ['daily'] names a frequency. *)
Lemma read_update_freq_daily st :
  is_Some (UpdateFreq_of_str "daily") →
  ∃ f, read_update_freq st = (Ok tt, set_self_update_freq (Some f) st).
Proof.
  intros [d Hd]. unfold read_update_freq, make_UpdateFreq, assign_update_freq, settings_get.
  run. simpl.
  destruct (UpdateFreq_of_str (update_freq_str _)) as [f|]; simpl; [eauto|].
  rewrite Hd. simpl. eauto.
Qed.

(** Lines 369-391: a keyword list is read without touching the
    plugin: the tokens of the text, or the default list when there is
    none. *)
Lemma read_keywords_tokens key dflt_string dflt st :
  read_keywords key dflt_string dflt st
  = (Ok (match PyStr.split (PyStr.strip (keyword_text st key dflt_string)) with
         | [] => dflt
         | x :: r => x :: r
         end), st).
Proof.
  unfold read_keywords, keyword_text, settings_get. run. simpl.
  destruct (settings st !! key) as [[|t|]|]; simpl;
    match goal with |- context [PyStr.truthy ?x] => destruct x eqn:E end;
    simpl; first [ destruct dflt; reflexivity
                 | match goal with |- context [PyStr.split ?x] =>
                     destruct (PyStr.split x); reflexivity end ].
Qed.

Lemma read_input_cur_settings_kept i : safe settings_kept false (read_input_cur i).
Proof.
  unfold_read_config. unfold_calls. safe_steps.
  all: simpl; auto; discriminate.
Qed.

Lemma read_output_cur_settings_kept i : safe settings_kept false (read_output_cur i).
Proof.
  unfold_read_config. unfold_calls. safe_steps.
  all: simpl; auto; discriminate.
Qed.

(** Where [configure_broker] gives the keyword lists, they were read
    from the settings it started with. *)
Lemma configure_broker_keywords st kw st1 :
  configure_broker st = (Ok (Some kw), st1) →
  ∃ st2, settings st2 = settings st
    ∧ read_keywords "separators" "to in :" ["to"; "in"; ":"] st2 = (Ok kw.1, st2)
    ∧ read_keywords "destination_separators" "and & ," ["and"; "&"; ","] st2 = (Ok kw.2, st2).
Proof.
  unfold configure_broker. rewrite bind_run.
  destruct (read_update_freq_run st) as (r & o & ->).
  destruct r as [[]|e]; [|discriminate].
  rewrite bind_run, read_app_id_run, bind_run.
  set (st0 := set_self_update_freq o st). simpl settings.
  set (key := app_id_key_of _).
  assert (∃ r st3, init_or_update_broker key st0 = (Ok r, st3)
            ∧ (r = None ∨ (is_Some (broker st3) ∧ settings st3 = settings st)))
    as (r & st3 & -> & Hr).
  { destruct (broker st0) as [[id b]|] eqn:Hb.
    - destruct (init_or_update_broker_settings_kept key st0) as [W _];
        [rewrite Hb; eauto|].
      destruct (init_or_update_broker key st0) as [[r|e] st3] eqn:E.
      + exists r, st3. split; [reflexivity|]. right. split.
        * eapply within_has_broker; [exact W | rewrite Hb; eauto].
        * symmetry. exact (within_settings _ _ _ W).
      + exfalso. revert E. unfold init_or_update_broker, try_except, log_msg.
        match goal with |- context [match ?x with (_, _) => _ end] =>
          destruct x as [[?|?] ?] end; simpl; discriminate.
    - destruct (init_broker_run key st0 Hb) as (r & st3 & E & Hs & Hr).
      exists r, st3. split; [exact E|].
      destruct Hr as [(-> & _) | (-> & _ & b & Hb3)]; [left; reflexivity|].
      right. split; [rewrite Hb3; eauto | exact Hs]. }
  destruct r as [i|]; [|discriminate].
  destruct Hr as [[=] | [Hb3 Hs3]].
  rewrite bind_run. unfold read_currencies. rewrite bind_run.
  destruct (read_input_cur_settings_kept i st3 Hb3) as [W1 _].
  destruct (read_input_cur i st3) as [[[]|e] st4]; [|discriminate]. simpl in W1.
  rewrite bind_run.
  destruct (read_output_cur_settings_kept i st4 (within_has_broker _ _ _ W1 Hb3)) as [W2 _].
  destruct (read_output_cur i st4) as [[[]|e] st5]; [|discriminate]. simpl in W2.
  rewrite bind_run, read_keywords_tokens, bind_run, read_keywords_tokens.
  simpl. intros [= <- <-]. exists st5. split.
  - rewrite <- Hs3. transitivity (settings st4); symmetry.
    + exact (within_settings _ _ _ W2).
    + exact (within_settings _ _ _ W1).
  - rewrite !read_keywords_tokens. auto.
Qed.

(** X11. The keyword lists [_read_config] hands to the parser are
    the white-space separated tokens of the settings [separators] and
    [destination_separators]; a setting that is missing, not a string
    or without a token gives the default list, so neither list is
    ever empty. *)
Theorem keyword_lists_never_empty st separators dest_separators st1 :
  configure_broker st = (Ok (Some (separators, dest_separators)), st1) →
  separators
    = match PyStr.split (PyStr.strip (keyword_text st "separators" "to in :")) with
      | [] => ["to"; "in"; ":"]
      | x :: r => x :: r
      end
  ∧ dest_separators
    = match PyStr.split (PyStr.strip (keyword_text st "destination_separators" "and & ,")) with
      | [] => ["and"; "&"; ","]
      | x :: r => x :: r
      end
  ∧ separators ≠ [] ∧ dest_separators ≠ [].
Proof.
  intros E. destruct (configure_broker_keywords _ _ _ E) as (st2 & Hs & E1 & E2).
  rewrite read_keywords_tokens in E1, E2. simpl in E1, E2.
  injection E1 as E1. injection E2 as E2.
  unfold keyword_text in *. rewrite Hs in E1, E2.
  split; [symmetry; exact E1|]. split; [symmetry; exact E2|].
  assert (∀ l d : list string, d ≠ [] → match l with [] => d | x :: r => x :: r end ≠ [])
    as Hne by (intros [|x r] d Hd; [exact Hd | discriminate]).
  rewrite <- E1, <- E2. split; apply Hne; discriminate.
Qed.

(** The broker stage always returns: [None] where it fails, and
    otherwise there is a broker. *)
Lemma init_or_update_broker_returns key st :
  ∃ r st3, init_or_update_broker key st = (Ok r, st3)
    ∧ (r = None ∨ is_Some (broker st3)).
Proof.
  destruct (broker st) as [[id b]|] eqn:Hb.
  - destruct (init_or_update_broker_settings_kept key st) as [W _];
      [rewrite Hb; eauto|].
    destruct (init_or_update_broker key st) as [[r|e] st3] eqn:E.
    + exists r, st3. split; [reflexivity|]. right.
      eapply within_has_broker; [exact W | rewrite Hb; eauto].
    + exfalso. revert E. unfold init_or_update_broker, try_except, log_msg.
      match goal with |- context [match ?x with (_, _) => _ end] =>
        destruct x as [[?|?] ?] end; simpl; discriminate.
  - destruct (init_broker_run key st Hb) as (r & st3 & E & Hs & Hr).
    exists r, st3. split; [exact E|].
    destruct Hr as [(-> & _) | (-> & _ & b & Hb3)]; [left; reflexivity|].
    right. rewrite Hb3. eauto.
Qed.

Section LastResorts.
Hypothesis usd_returns : ∀ b, ∃ r, fst (set_default_cur_in "USD" b) = Ok r.
Hypothesis usd_eur_returns :
  ∀ b, ∃ r, fst (set_default_curs_out ULTIMATE_FALLBACK_CUR b) = Ok r.

Lemma configure_rest_returns i : safe same_object true (configure_rest i).
Proof.
  unfold configure_rest. unfold_read_config. unfold_calls. safe_steps.
  all: simpl; auto; try discriminate.
Qed.

End LastResorts.

(** X9. [_read_config], and with it [__init__], raises nothing
    whatever the settings hold and whatever the broker, the registry
    and the parser factory raise, as long as the three calls made
    outside every [try] body return: [UpdateFreq('daily')] (line 203),
    [set_default_cur_in('USD')] (line 296) and
    [set_default_curs_out('USD EUR')] (line 363). *)
Theorem read_config_returns st :
  is_Some (UpdateFreq_of_str "daily") →
  (∀ b, ∃ r, fst (set_default_cur_in "USD" b) = Ok r) →
  (∀ b, ∃ r, fst (set_default_curs_out ULTIMATE_FALLBACK_CUR b) = Ok r) →
  (∃ st', _read_config st = (Ok tt, st')) ∧ (∃ st', __init__ st = (Ok tt, st')).
Proof.
  intros Hd Hin Hout.
  assert (∀ st0, ∃ st', _read_config st0 = (Ok tt, st')) as Hrc.
  { intros st0. rewrite read_config_run.
    destruct (read_update_freq_daily st0 Hd) as (f & Ef).
    rewrite (bind_Ok _ _ _ _ _ Ef), bind_run, read_app_id_run. cbv beta iota.
    rewrite bind_run.
    match goal with |- context [init_or_update_broker ?k ?s] =>
      destruct (init_or_update_broker_returns k s) as (r & st3 & E & Hr) end.
    rewrite E.
    destruct r as [i|]; [|eauto].
    destruct Hr as [[=]|Hb3].
    destruct (configure_rest_returns Hin Hout i st3 Hb3) as [_ T].
    destruct (T eq_refl) as [[] Ea].
    destruct (configure_rest i st3) as [r st4]. simpl in Ea. subst r. eauto. }
  split; [apply Hrc|].
  unfold __init__. rewrite bind_run. unfold log_msg. cbv beta iota. apply Hrc.
Qed.

(** X10. When the broker stage fails (the cache directory cannot
    be made, or the constructor raises on a first start),
    [_read_config] logs one ERROR record and returns: the broker, the
    parser, the settings and the items are as they were, and nothing
    was called but [mkdir] and, on a first start, the constructor. *)
Theorem failed_broker_stage_applies_nothing st :
  is_Some (UpdateFreq_of_str "daily") →
  cache_dir_ok st = false
  ∨ (broker st = None
     ∧ ∀ f, ∃ e, ExchangeRates_new f
                   (app_id_key_of (default (PyStr "") (settings st !! "app_id")))
                 = Raise e) →
  ∃ st' msg,
    _read_config st = (Ok tt, st')
    ∧ broker st' = broker st ∧ parser st' = parser st ∧ items st' = items st
    ∧ settings st' = settings st ∧ next_id st' = next_id st
    ∧ new_calls st st'
      = CallMkdir :: (if cache_dir_ok st then [CallExchangeRates (next_id st)] else [])
    ∧ new_log st st' = [(ERROR, "Failed to initialize ExchangeRates broker: " +:+ msg)].
Proof.
  intros Hd Hfail. rewrite read_config_run.
  destruct (read_update_freq_daily st Hd) as (f & Ef).
  rewrite (bind_Ok _ _ _ _ _ Ef), bind_run, read_app_id_run. cbv beta iota.
  rewrite bind_run.
  unfold init_or_update_broker, make_cache_dir, self_broker, construct_broker,
    self_update_freq_attr, new_ExchangeRates, log_msg. run. simpl.
  unfold new_calls, new_log.
  destruct Hfail as [Hc | [Hb Hnew]].
  - rewrite Hc. simpl. eexists _, _. split; [reflexivity|]. simpl.
    rewrite !drop_app_length. auto 10.
  - destruct (cache_dir_ok st); simpl.
    + rewrite Hb. simpl. destruct (Hnew f) as [e He]. rewrite He. simpl.
      eexists _, _. split; [reflexivity|]. simpl.
      rewrite <- !app_assoc, !drop_app_length. auto 10.
    + eexists _, _. split; [reflexivity|]. simpl.
      rewrite !drop_app_length. auto 10.
Qed.

(** X12. On a reload, lines 263-298 never raise, and ask the broker
    for a new input currency at most once: exactly when the broker's
    current input currency is not empty and differs from the stripped
    setting, where a setting that is missing, blank or not a string
    counts as the current currency. ['USD'] is never fallen back on. *)
Theorem reload_input_cur_calls st id b :
  broker st = Some (id, b) →
  ∃ st', read_input_cur false st = (Ok tt, st')
    ∧ settings st' = settings st ∧ parser st' = parser st ∧ items st' = items st
    ∧ match input_cur_update st b with
      | Some code =>
          new_calls st st' = [CallSetDefaultCurIn code]
          ∧ broker st' = Some (id, snd (set_default_cur_in code b))
      | None => new_calls st st' = [] ∧ broker st' = Some (id, b)
      end.
Proof.
  intros Hb. unfold input_cur_update, reload_input_code.
  unfold read_input_cur, broker_getattr, settings_get, log_msg,
    call_set_default_cur_in, broker_call, new_calls. run. exec with Hb.
  destruct (input_code_of _ _) as [s|]; simpl.
  2:{ destruct (default_cur_in b); eexists; (split; [reflexivity|]); simpl;
        rewrite drop_all; auto. }
  destruct (default_cur_in b) as [cur|] eqn:Ec; simpl.
  2:{ eexists; (split; [reflexivity|]); simpl; rewrite drop_all; auto. }
  destruct (PyStr.truthy cur); simpl.
  2:{ eexists; (split; [reflexivity|]); simpl; rewrite drop_all; auto. }
  destruct (bool_decide (PyStr.strip s ≠ cur)); simpl.
  2:{ eexists; (split; [reflexivity|]); simpl; rewrite drop_all; auto. }
  rewrite Hb. simpl.
  destruct (set_default_cur_in (PyStr.strip s) b) as [[[]|e] b1]; simpl;
    eexists; (split; [reflexivity|]); simpl; rewrite drop_app_length; auto.
Qed.

(** X13. On a reload of a broker that has its destination list,
    lines 310-354 compare the list, joined by spaces, with the
    setting: equal, nothing is called; different, the broker is asked
    once for the setting's list (if that call returns). A setting that
    is missing, blank or not a string stands for ['USD EUR JPY']. *)
Theorem reload_output_cur_calls st id b curs :
  broker st = Some (id, b) →
  default_curs_out b = Some curs →
  let code := output_code_of (default (PyStr DEFAULT_OUTPUT_CUR)
                                      (settings st !! "output_cur")) in
  (PyStr.join " " curs = code →
     ∃ st', read_output_cur false st = (Ok tt, st')
       ∧ new_calls st st' = [] ∧ broker st' = Some (id, b))
  ∧ (PyStr.join " " curs ≠ code →
     ∀ r b1, set_default_curs_out code b = (Ok r, b1) →
     ∃ st', read_output_cur false st = (Ok tt, st')
       ∧ new_calls st st' = [CallSetDefaultCursOut code]
       ∧ broker st' = Some (id, b1))
  ∧ (∀ v, settings st !! "output_cur" = v →
       (v = None ∨ v = Some PyNone ∨ v = Some PyOther
        ∨ ∃ s, v = Some (PyStr s) ∧ PyStr.truthy (PyStr.strip s) = false) →
       code = "USD EUR JPY").
Proof.
  intros Hb Ho code. split; [|split].
  - intros E. unfold read_output_cur, broker_getattr, settings_get, log_msg,
      call_set_default_curs_out, broker_call, new_calls. run. exec with Hb Ho.
    fold code. rewrite bool_decide_eq_false_2 by (intros N; apply N; exact E).
    simpl. eexists. split; [reflexivity|]. simpl. rewrite drop_all. auto.
  - intros N r b1 Hset. unfold read_output_cur, broker_getattr, settings_get, log_msg,
      call_set_default_curs_out, broker_call, new_calls. run. exec with Hb Ho.
    fold code. rewrite bool_decide_eq_true_2 by exact N.
    simpl. rewrite Hb, Hset. simpl.
    destruct r; simpl; eexists; (split; [reflexivity|]); simpl;
      rewrite drop_app_length; auto.
  - intros v Hv Hcase. subst code. rewrite Hv.
    destruct Hcase as [-> | [-> | [-> | (s & -> & Hs)]]]; simpl; try reflexivity.
    rewrite Hs. reflexivity.
Qed.

(** X14. On a first start, lines 327-332 try the setting, then
    ['USD EUR JPY'], then ['USD EUR'], and stop at the first the
    broker accepts (if the calls return). *)
Theorem first_output_cur_fallbacks st id b r1 b1 r2 b2 r3 b3 :
  broker st = Some (id, b) →
  let code := output_code_of (default (PyStr DEFAULT_OUTPUT_CUR)
                                      (settings st !! "output_cur")) in
  set_default_curs_out code b = (Ok r1, b1) →
  set_default_curs_out DEFAULT_OUTPUT_CUR b1 = (Ok r2, b2) →
  set_default_curs_out ULTIMATE_FALLBACK_CUR b2 = (Ok r3, b3) →
  ∃ st', read_output_cur true st = (Ok tt, st')
    ∧ new_calls st st'
      = CallSetDefaultCursOut code
        :: (if r1 then []
            else CallSetDefaultCursOut DEFAULT_OUTPUT_CUR
                 :: (if r2 then [] else [CallSetDefaultCursOut ULTIMATE_FALLBACK_CUR]))
    ∧ broker st' = Some (id, if r1 then b1 else if r2 then b2 else b3).
Proof.
  intros Hb code H1 H2 H3.
  unfold read_output_cur, broker_getattr, settings_get, log_msg,
    call_set_default_curs_out, broker_call, new_calls. run. exec with Hb.
  fold code. rewrite H1. destruct r1; simpl.
  - eexists. split; [reflexivity|]. simpl. rewrite drop_app_length. auto.
  - rewrite H2. destruct r2; simpl.
    + eexists. split; [reflexivity|]. simpl.
      rewrite <- !app_assoc, drop_app_length. auto.
    + rewrite H3. simpl. eexists. split; [reflexivity|]. simpl.
      rewrite <- !app_assoc, drop_app_length. auto.
Qed.

(** X15. On a first start, lines 279-282 ask the broker for the
    stripped setting, ['USD'] where the setting is missing, blank or
    not a string, and for ['USD'] after it when the broker refuses (if
    the calls return). *)
Theorem first_input_cur_fallback st id b r1 b1 r2 b2 :
  broker st = Some (id, b) →
  set_default_cur_in (first_input_code st) b = (Ok r1, b1) →
  set_default_cur_in "USD" b1 = (Ok r2, b2) →
  ∃ st', read_input_cur true st = (Ok tt, st')
    ∧ new_calls st st'
      = CallSetDefaultCurIn (first_input_code st)
        :: (if r1 then [] else [CallSetDefaultCurIn "USD"])
    ∧ broker st' = Some (id, if r1 then b1 else b2).
Proof.
  intros Hb H1 H2. revert H1. unfold first_input_code.
  unfold read_input_cur, broker_getattr, settings_get, log_msg,
    call_set_default_cur_in, broker_call, new_calls. run. exec with Hb.
  destruct (settings st !! "input_cur") as [[|s|]|]; simpl;
    try (destruct (PyStr.truthy (PyStr.strip s)); simpl);
    try change (PyStr.strip "USD") with "USD";
    intros H1; rewrite Hb, H1; (destruct r1; simpl;
    [ eexists; (split; [reflexivity|]); simpl; rewrite drop_app_length; auto
    | rewrite H2; simpl; eexists; (split; [reflexivity|]); simpl;
      rewrite <- !app_assoc, drop_app_length; auto ]).
Qed.

End ConfigurationStages.

(* ===================================================================== *)
(** ** Further properties of [reload_settings] *)
(* ===================================================================== *)

Section ReloadEdges.
Context `{Collab}.

(** X17. [reload_settings] raises nothing, whatever the plugin is
    and whatever [settings.reload()], the broker, the registry and the
    parser factory raise: the handler of line 102 catches what the try
    body raises, and the handler of line 109 what the recovery raises. *)
Theorem reload_settings_never_raises st : ∃ st', reload_settings st = (Ok tt, st').
Proof.
  unfold reload_settings, try_except, log_msg.
  destruct (reload_body st) as [[[]|e] st1]; [eauto|]. simpl.
  rewrite bind_run. simpl.
  match goal with |- context [mbind ?k ?m ?s] => destruct (mbind k m s) as [[[]|e2] st2] end;
    simpl; eauto.
Qed.

(** X16. A reload of a plugin without a broker, at a moment when
    the broker can be constructed: [_read_config] constructs it, line
    92 then reads [old_state], which line 81 has not bound, and the
    [UnboundLocalError] sends the reload through its recovery path,
    which deletes the new broker and constructs another (or leaves
    none). The reload returns. *)
Theorem reload_without_broker_builds_twice st cfg st1 id1 b1 :
  broker st = None → settings_file st = Ok cfg →
  _read_config (set_settings cfg (set_calls (calls st ++ [CallSettingsReload]) st))
    = (Ok tt, st1) →
  broker st1 = Some (id1, b1) →
  id1 = next_id st
  ∧ reload_body st
    = (Raise (Exn UnboundLocalError
                "cannot access local variable 'old_state' where it is not associated with a value"),
       st1)
  ∧ fst (reload_settings st) = Ok tt
  ∧ ((broker (snd (reload_settings st)) = None
      ∧ next_id (snd (reload_settings st)) = S (next_id st))
     ∨ (∃ b2, broker (snd (reload_settings st)) = Some (S (next_id st), b2)
        ∧ next_id (snd (reload_settings st)) = S (S (next_id st)))).
Proof.
  intros Hb Hcfg Erc Hb1.
  set (stR := set_settings cfg (set_calls (calls st ++ [CallSettingsReload]) st)) in *.
  assert (next_id st1 = S (next_id st) ∧ id1 = next_id st) as [Hn ->].
  { destruct (read_config_first_init stR Hb) as [[B _] | [N [b B]]];
      rewrite Erc in *; simpl in *; [congruence|].
    rewrite Hb1 in B. injection B as -> _. auto. }
  assert (reload_body st
          = (Raise (Exn UnboundLocalError
               "cannot access local variable 'old_state' where it is not associated with a value"),
             st1)) as Ebody.
  { unfold reload_body, self_broker, settings_reload.
    remember _read_config as rc eqn:Hrc. run. exec with Hb Hcfg.
    fold stR. rewrite Erc. simpl. rewrite Hb1. reflexivity. }
  split; [reflexivity|]. split; [exact Ebody|].
  unfold reload_settings. rewrite (try_except_caught _ _ _ _ _ _ Ebody eq_refl).
  unfold log_msg, delattr_broker. rewrite bind_run. simpl.
  unfold try_except. rewrite bind_run. simpl. rewrite Hb1. simpl.
  match goal with |- context [_read_config ?s] =>
    destruct (read_config_first_init s eq_refl) as [[B N] | [N [b2 B]]];
    destruct (_read_config s) as [[[]|e2] st3]; simpl in *
  end; rewrite ?Hn in *; eauto.
Qed.

End ReloadEdges.

(* ===================================================================== *)
(** ** The statements on the concrete instance *)
(* ===================================================================== *)

Section OnTheInstance.
#[local] Existing Instance Demo.types.
#[local] Existing Instance Demo.collab.

(** The first end-to-end example of the specification (8): ["100"]
    with the defaults USD and EUR, JPY and the rates 1.0, 0.9 and 150
    gives 90.0 and 15000.0; the update item follows. *)
Example query_100 :
  fst (query "100" Demo.started) = Ok tt
  ∧ (title <$> new_items Demo.started (snd (query "100" Demo.started)))
    = ["EUR"; "JPY"; "Update Currency"]
  ∧ (parameters <$> new_items Demo.started (snd (query "100" Demo.started)))
    = [[ParamFloat (Demo.fl 90)]; [ParamFloat (Demo.fl 15000)]; [ParamStr "100"]].
Proof. vm_compute. split; [reflexivity|split; reflexivity]. Qed.

(** The second: ["50 eur to usd"] gives 50 * 1.0 / 0.9. *)
Example query_50_eur_to_usd :
  (parameters <$> new_items Demo.started (snd (query "50 eur to usd" Demo.started)))
  = [[ParamFloat (PrimFloat.div (PrimFloat.mul (Demo.fl 50) (Demo.fl 1))
                    (PrimFloat.div (Demo.fl 9) (Demo.fl 10)))];
     [ParamStr "50 eur to usd"]].
Proof. vm_compute. reflexivity. Qed.

(** The plugin started with a broker, and without one where the cache
    directory could not be made. *)
Example started_broker :
  broker Demo.started = Some (0, Demo.broker_of Demo.started)
  ∧ default_cur_in (Demo.broker_of Demo.started) = Some "USD"
  ∧ default_curs_out (Demo.broker_of Demo.started) = Some ["EUR"; "JPY"]
  ∧ broker Demo.unstarted = None.
Proof. vm_compute. auto. Qed.



(** C2, at the started plugin, whose reload runs through. *)
Lemma broker_kept_except_recovery_witness :
  (∃ b', broker (snd (_read_config Demo.started)) = Some (0, b'))
  ∧ next_id (snd (_read_config Demo.started)) = next_id Demo.started
  ∧ reload_settings Demo.started = (Ok tt, snd (reload_body Demo.started))
  ∧ (∃ b', broker (snd (reload_body Demo.started)) = Some (0, b'))
  ∧ next_id (snd (reload_body Demo.started)) = next_id Demo.started.
Proof.
  destruct (broker_kept_except_recovery Demo.started) as (Hread & _ & Hreload & _).
  destruct (Hread 0 (Demo.broker_of Demo.started)) as (Hb & Hn & _);
    [vm_compute; reflexivity|].
  destruct (Hreload 0 (Demo.broker_of Demo.started) (snd (reload_body Demo.started)))
    as (Hr & Hb' & Hn' & _); [vm_compute; reflexivity | vm_compute; reflexivity |].
  exact (conj Hb (conj Hn (conj Hr (conj Hb' Hn')))).
Defined.

(** C2 as worded fails where [settings.json] cannot be read: the
    reload ends with a second broker, object 1, in place of object 0. *)
Lemma reload_replaces_broker :
  ¬ reload_keeps_broker Demo.unreadable
  ∧ fst <$> broker Demo.unreadable = Some 0
  ∧ fst <$> broker (snd (reload_settings Demo.unreadable)) = Some 1
  ∧ next_id (snd (reload_settings Demo.unreadable)) = 2.
Proof.
  split; [|vm_compute; auto].
  intros Hc. destruct (Hc 0 (Demo.broker_of Demo.unreadable)) as [b' Hb'];
    [vm_compute; reflexivity|].
  vm_compute in Hb'. discriminate.
Qed.

(** C4 fails on a plugin without a broker: the number ["100"] makes
    [query] raise [AttributeError] to its caller, after the item
    "Error" was added. *)
Theorem query_raises_without_broker :
  broker Demo.unstarted = None
  ∧ fst (query "100" Demo.unstarted) = Raise (no_attribute "NoneType" "last_update")
  ∧ new_items Demo.unstarted (snd (query "100" Demo.unstarted))
    = [error_item (no_attribute "NoneType" "default_cur_in")].
Proof.
  split; [reflexivity|].
  apply (query_without_broker Demo.unstarted "100" (Demo.fl 100));
    vm_compute; reflexivity.
Qed.

(** C5, at the text ["to to to"], which the parser rejects. *)
Lemma parse_error_gives_base_query_witness :
  fst (_parse_and_merge_input (Some "to to to") true Demo.started) = Ok template_request
  ∧ fst (query "to to to" Demo.started) = Ok tt
  ∧ items (snd (query "to to to" Demo.started)) = items Demo.started.
Proof.
  destruct (parse_error_gives_base_query Demo.started "to to to"
              (Demo.parser_of Demo.started)
              (Exn ParseError "expected a currency after 'to'"))
    as (Ht & _ & Hq & Hi & _); try (vm_compute; reflexivity).
  auto.
Defined.

(** C5 as worded fails when the flag is not set: the same text gets
    the default request, amount 1.0 of USD into EUR and JPY. *)
Lemma parse_error_without_flag :
  parse (Demo.parser_of Demo.started) "to to to"
    = Raise (Exn ParseError "expected a currency after 'to'")
  ∧ fst (_parse_and_merge_input (Some "to to to") false Demo.started)
    = Ok (default_request (Demo.broker_of Demo.started) (Demo.fl 1) ["EUR"; "JPY"])
  ∧ fst (_parse_and_merge_input (Some "to to to") false Demo.started)
    ≠ Ok template_request.
Proof.
  split; [vm_compute; reflexivity|]. split; [vm_compute; reflexivity|].
  vm_compute. discriminate.
Qed.

(** C6, at the text [" 100 "]. *)
Lemma numeric_literal_fast_path_witness :
  _parse_and_merge_input (Some " 100 ") false Demo.started
  = (Ok (default_request (Demo.broker_of Demo.started) (Demo.fl 100) ["EUR"; "JPY"]),
     Demo.started).
Proof.
  apply (numeric_literal_fast_path Demo.started " 100 " (Demo.fl 100) 0
           (Demo.broker_of Demo.started) ["EUR"; "JPY"]);
    vm_compute; reflexivity.
Defined.

(** C7, at the text ["5 euros"]: the parser gives a source and no
    destination. *)
Lemma parsed_request_backfilled_witness :
  ∃ q st', _parse_and_merge_input (Some "5 euros") true Demo.started = (Ok q, st')
    ∧ sources q = Some [ @Build_Source Demo.types (Some "EUR") (Demo.fl 5) ]
    ∧ destinations q = Some [ {| dst_currency := "EUR" |}; {| dst_currency := "JPY" |} ].
Proof.
  destruct (parsed_request_backfilled Demo.started "5 euros" true 0
              (Demo.broker_of Demo.started) ["EUR"; "JPY"]
              (Demo.parser_of Demo.started)
              {| sources := Some [ @Build_Source Demo.types (Some "EUR") (Demo.fl 5) ];
                 destinations := None; extra := None |})
    as (q & st' & Hrun & Hs & Hd & _); try (vm_compute; reflexivity).
  exists q, st'. auto.
Defined.

(** C9, at the start of the plugin. *)
Lemma parser_fallback_chain_witness :
  fst (_read_config (Demo.blank Demo.cfg true)) = Ok tt
  ∧ is_Some (parser (snd (_read_config (Demo.blank Demo.cfg true)))).
Proof.
  destruct (parser_fallback_chain (Demo.blank Demo.cfg true)
              ["to"; "in"; ":"] ["and"; "&"; ","]
              (snd (configure_broker (Demo.blank Demo.cfg true))))
    as (st2 & _ & Hok & Hp & _); [vm_compute; reflexivity|].
  split; [exact Hok|]. vm_compute. eauto.
Defined.

(** C10, at the texts the claim names. *)
Lemma float_input_ignores_empty_flag_witness :
  _parse_and_merge_input (Some "1e5") true Demo.started
  = (Ok (default_request (Demo.broker_of Demo.started) (Demo.fl 100000) ["EUR"; "JPY"]),
     Demo.started)
  ∧ _parse_and_merge_input (Some "inf") true Demo.started
    = (Ok (default_request (Demo.broker_of Demo.started) PrimFloat.infinity ["EUR"; "JPY"]),
       Demo.started)
  ∧ _parse_and_merge_input (Some "nan") true Demo.started
    = (Ok (default_request (Demo.broker_of Demo.started) PrimFloat.nan ["EUR"; "JPY"]),
       Demo.started)
  ∧ _parse_and_merge_input (Some "-3") true Demo.started
    = (Ok (default_request (Demo.broker_of Demo.started) (PrimFloat.opp (Demo.fl 3))
             ["EUR"; "JPY"]),
       Demo.started).
Proof.
  split; [|split; [|split]].
  - apply (float_input_ignores_empty_flag Demo.started "1e5" (Demo.fl 100000) 0
             (Demo.broker_of Demo.started) ["EUR"; "JPY"]); vm_compute; reflexivity.
  - apply (float_input_ignores_empty_flag Demo.started "inf" PrimFloat.infinity 0
             (Demo.broker_of Demo.started) ["EUR"; "JPY"]); vm_compute; reflexivity.
  - apply (float_input_ignores_empty_flag Demo.started "nan" PrimFloat.nan 0
             (Demo.broker_of Demo.started) ["EUR"; "JPY"]); vm_compute; reflexivity.
  - apply (float_input_ignores_empty_flag Demo.started "-3" (PrimFloat.opp (Demo.fl 3)) 0
             (Demo.broker_of Demo.started) ["EUR"; "JPY"]); vm_compute; reflexivity.
Defined.

(** The broker of the examples keeps the contract. *)
Lemma demo_contract : BrokerContract.
Proof.
  split.
  - exists Demo.daily. reflexivity.
  - reflexivity.
  - reflexivity.
  - reflexivity.
  - intros b. unfold same_config, force_update. simpl.
    unfold Demo.fetch. destruct (Demo.remote (internals b)); simpl; auto.
  - intros s b. unfold set_default_cur_in. simpl. unfold Demo.set_default_cur_in.
    destruct (Demo.validate_code s) as [[c|]|e]; simpl; eauto.
  - intros s b. unfold set_default_cur_in. simpl. unfold Demo.set_default_cur_in.
    destruct (Demo.validate_code s) as [[c|]|e]; simpl; auto.
  - intros s b. unfold set_default_curs_out. simpl. unfold Demo.set_default_curs_out.
    destruct (Demo.validate_all (PyStr.split s)) as [[|c cs]|]; simpl; eauto.
  - intros s b. unfold set_default_curs_out. simpl. unfold Demo.set_default_curs_out.
    destruct (Demo.validate_all (PyStr.split s)) as [[|c cs]|]; simpl; auto.
Qed.




(** And a reload after the output currencies were edited: the broker
    takes them, and a refresh is forced. *)
Example reload_after_edit :
  fst (reload_settings Demo.edited) = Ok tt
  ∧ In CallForceUpdate (new_calls Demo.edited (snd (reload_settings Demo.edited)))
  ∧ default_curs_out (Demo.broker_of (snd (reload_settings Demo.edited))) = Some ["GBP"].
Proof. vm_compute. intuition. Qed.

(** X1, at a plugin without a broker. *)
Lemma blank_query_is_silent_witness :
  ∃ st', query "  " Demo.unstarted = (Ok tt, st')
    ∧ items st' = items Demo.unstarted ∧ calls st' = calls Demo.unstarted
    ∧ broker st' = broker Demo.unstarted ∧ parser st' = parser Demo.unstarted.
Proof. apply (blank_query_is_silent "  " Demo.unstarted). reflexivity. Defined.



(** X4, at a broker that never was updated: the results are added,
    and then line 63 raises. *)
Lemma query_raises_only_without_last_update_witness :
  fst (query "100" Demo.never_updated) = Raise (no_attribute "NoneType" "isoformat")
  ∧ (title <$> new_items Demo.never_updated (snd (query "100" Demo.never_updated)))
    = ["EUR"; "JPY"]
  ∧ ∃ b', broker (snd (query "100" Demo.never_updated)) = Some (0, b')
          ∧ last_update b' = None.
Proof.
  destruct (query_raises_only_without_last_update Demo.never_updated "100"
              0 (Demo.broker_of Demo.never_updated)
              (no_attribute "NoneType" "isoformat"))
    as [_ Hb]; try (vm_compute; reflexivity).
  split; [vm_compute; reflexivity|]. split; [vm_compute; reflexivity | exact Hb].
Defined.

(** X5, at a query that parses and converts. *)
Lemma query_calls_only_conversion_witness :
  (∃ b', broker (snd (query "50 eur to usd" Demo.started)) = Some (0, b'))
  ∧ settings (snd (query "50 eur to usd" Demo.started)) = settings Demo.started
  ∧ next_id (snd (query "50 eur to usd" Demo.started)) = next_id Demo.started
  ∧ Forall (λ c, is_query_call c = true)
      (new_calls Demo.started (snd (query "50 eur to usd" Demo.started))).
Proof.
  apply (query_calls_only_conversion Demo.started "50 eur to usd"
           0 (Demo.broker_of Demo.started)).
  vm_compute. reflexivity.
Defined.

(** X6, at a plugin without a broker: the hard-coded request. *)
Lemma blank_input_gives_base_query_witness :
  fst (_parse_and_merge_input (Some "  ") false Demo.unstarted) = Ok fallback_request
  ∧ fst (_parse_and_merge_input None true Demo.unstarted) = Ok template_request.
Proof.
  destruct (blank_input_gives_base_query (Some "  ") false Demo.unstarted)
    as (q & st' & E & _ & _ & _ & _ & _ & Hq); [intros s [= <-]; reflexivity|].
  destruct (blank_input_gives_base_query None true Demo.unstarted)
    as (q2 & st2 & E2 & _ & _ & _ & Hq2 & _); [intros s [=]|].
  rewrite E, E2, (Hq eq_refl (or_introl eq_refl)), (Hq2 eq_refl). split; reflexivity.
Defined.

(** X8, at an input that names a source currency only. *)
Lemma merged_request_complete_witness :
  ∃ q, fst (_parse_and_merge_input (Some "5 eur") false Demo.started) = Ok q
       ∧ (∃ s l, sources q = Some (s :: l)) ∧ is_Some (destinations q).
Proof.
  eexists. split; [vm_compute; reflexivity|].
  apply (merged_request_complete (Some "5 eur") Demo.started _
           (snd (_parse_and_merge_input (Some "5 eur") false Demo.started))).
  vm_compute. reflexivity.
Defined.

(** X9, at the broker of the examples, for a first start. *)
Lemma read_config_returns_witness :
  (∃ st', _read_config (Demo.blank Demo.cfg_bad true) = (Ok tt, st'))
  ∧ (∃ st', __init__ (Demo.blank Demo.cfg_bad true) = (Ok tt, st')).
Proof.
  apply (read_config_returns (Demo.blank Demo.cfg_bad true)).
  - exact (@daily_is_valid _ _ demo_contract).
  - exact (@set_default_cur_in_returns _ _ demo_contract "USD").
  - exact (@set_default_curs_out_returns _ _ demo_contract ULTIMATE_FALLBACK_CUR).
Defined.

(** X10, where the cache directory cannot be made. *)
Lemma failed_broker_stage_applies_nothing_witness :
  ∃ st' msg, _read_config Demo.locked = (Ok tt, st')
    ∧ broker st' = broker Demo.locked ∧ parser st' = parser Demo.locked
    ∧ items st' = items Demo.locked
    ∧ settings st' = settings Demo.locked ∧ next_id st' = next_id Demo.locked
    ∧ new_calls Demo.locked st' = [CallMkdir]
    ∧ new_log Demo.locked st'
      = [(ERROR, "Failed to initialize ExchangeRates broker: " +:+ msg)].
Proof.
  apply (failed_broker_stage_applies_nothing Demo.locked).
  - exists Demo.daily. reflexivity.
  - left. reflexivity.
Defined.

(** X11, at settings that name no keywords. *)
Lemma keyword_lists_never_empty_witness :
  ["to"; "in"; ":"] ≠ [] ∧ ["and"; "&"; ","] ≠ [].
Proof.
  destruct (keyword_lists_never_empty (Demo.blank Demo.cfg true)
              ["to"; "in"; ":"] ["and"; "&"; ","]
              (snd (configure_broker (Demo.blank Demo.cfg true))))
    as (_ & _ & Hne); [vm_compute; reflexivity | exact Hne].
Defined.

(** X12, at a reload with the settings the plugin was started with,
    which name the input currency the broker has. *)
Lemma reload_input_cur_calls_witness :
  ∃ st', read_input_cur false Demo.started = (Ok tt, st')
    ∧ settings st' = settings Demo.started ∧ parser st' = parser Demo.started
    ∧ items st' = items Demo.started
    ∧ match input_cur_update Demo.started (Demo.broker_of Demo.started) with
      | Some code =>
          new_calls Demo.started st' = [CallSetDefaultCurIn code]
          ∧ broker st'
            = Some (0, snd (set_default_cur_in code (Demo.broker_of Demo.started)))
      | None =>
          new_calls Demo.started st' = []
          ∧ broker st' = Some (0, Demo.broker_of Demo.started)
      end.
Proof.
  apply (reload_input_cur_calls Demo.started 0 (Demo.broker_of Demo.started)).
  vm_compute; reflexivity.
Defined.

(** There no update is asked for; with the setting ["eur "], one is. *)
Example input_cur_update_examples :
  input_cur_update Demo.started (Demo.broker_of Demo.started) = None
  ∧ input_cur_update
      (set_settings (<["input_cur" := PyStr "eur "]> Demo.cfg) Demo.started)
      (Demo.broker_of Demo.started)
    = Some "eur".
Proof. vm_compute. auto. Qed.

(** X13, at a reload after the output currencies were set to GBP. *)
Lemma reload_output_cur_calls_witness :
  ∃ st', read_output_cur false (set_settings Demo.cfg_gbp Demo.started) = (Ok tt, st')
    ∧ new_calls (set_settings Demo.cfg_gbp Demo.started) st'
      = [CallSetDefaultCursOut "GBP"]
    ∧ (default_curs_out ∘ snd <$> broker st') = Some (Some ["GBP"]).
Proof.
  destruct (reload_output_cur_calls (set_settings Demo.cfg_gbp Demo.started)
              0 (Demo.broker_of Demo.started) ["EUR"; "JPY"])
    as (_ & Hchanged & _); try (vm_compute; reflexivity).
  destruct (Hchanged ltac:(vm_compute; discriminate) true
              (set_default_out (Some ["GBP"]) (Demo.broker_of Demo.started)))
    as (st' & E & Hc & Hb); [vm_compute; reflexivity|].
  exists st'. split; [exact E|]. split; [exact Hc|]. rewrite Hb. reflexivity.
Defined.

(** X14, at a first start with an output currency the registry does
    not know: the default list is taken. *)
Lemma first_output_cur_fallbacks_witness :
  ∃ st', read_output_cur true Demo.constructed = (Ok tt, st')
    ∧ new_calls Demo.constructed st'
      = [CallSetDefaultCursOut "EUR XXX"; CallSetDefaultCursOut "USD EUR JPY"]
    ∧ (default_curs_out ∘ snd <$> broker st') = Some (Some ["USD"; "EUR"; "JPY"]).
Proof.
  destruct (first_output_cur_fallbacks Demo.constructed 0
              (Demo.broker_of Demo.constructed)
              false (Demo.broker_of Demo.constructed)
              true (set_default_out (Some ["USD"; "EUR"; "JPY"])
                      (Demo.broker_of Demo.constructed))
              true (set_default_out (Some ["USD"; "EUR"])
                      (set_default_out (Some ["USD"; "EUR"; "JPY"])
                         (Demo.broker_of Demo.constructed))))
    as (st' & E & Hc & Hb); try (vm_compute; reflexivity).
  exists st'. split; [exact E|]. split; [exact Hc|]. rewrite Hb. reflexivity.
Defined.

(** X15, at the same first start: the input currency of the settings
    is taken. *)
Lemma first_input_cur_fallback_witness :
  ∃ st', read_input_cur true Demo.constructed = (Ok tt, st')
    ∧ new_calls Demo.constructed st' = [CallSetDefaultCurIn "USD"].
Proof.
  destruct (first_input_cur_fallback Demo.constructed 0
              (Demo.broker_of Demo.constructed)
              true (Demo.broker_of Demo.constructed)
              true (Demo.broker_of Demo.constructed))
    as (st' & E & Hc & _); try (vm_compute; reflexivity).
  exists st'. split; [exact E | exact Hc].
Defined.

(** X16, at the plugin that started without a broker: the reload
    constructs object 0, drops it, and ends with object 1. *)
Lemma reload_without_broker_builds_twice_witness :
  fst (reload_settings Demo.retried) = Ok tt
  ∧ (fst <$> broker (snd (reload_settings Demo.retried))) = Some 1
  ∧ filter is_construction (new_calls Demo.retried (snd (reload_settings Demo.retried)))
    = [CallExchangeRates 0; CallExchangeRates 1].
Proof.
  destruct (reload_without_broker_builds_twice Demo.retried Demo.cfg
              (snd (_read_config
                      (set_settings Demo.cfg
                         (set_calls (calls Demo.retried ++ [CallSettingsReload])
                            Demo.retried))))
              0 (Demo.broker_of
                   (snd (_read_config
                           (set_settings Demo.cfg
                              (set_calls (calls Demo.retried ++ [CallSettingsReload])
                                 Demo.retried))))))
    as (_ & _ & Hok & _); try (vm_compute; reflexivity).
  split; [exact Hok|]. vm_compute. auto.
Defined.

End OnTheInstance.
